(** * Raster and vector processing tool: the geoprocessing engine

    A shallow embedding of the engine's processors
    ([src/raster_processor.py], [src/vector_processor.py]), of the CRS model
    ([src/data_models.py]) and of the exception hierarchy
    ([src/exceptions.py]), with the properties the specification states
    about them.

    Conventions.
    - A raster band is the row-major list of its pixels; the model covers
      integer rasters, so a pixel is a [Z].  Rule bounds, scale factors and
      affine coefficients are Python floats and are rationals ([Q]) here.
    - A Python exception is a class of the hierarchy together with its
      message; [try: ... except Exception as e:] is [try_except].
    - Library calls whose result is not fixed by the repository
      (rasterio's warping, pyproj's coordinate transformation, the outcome
      of writing a file) are parameters of the model. *)

From Stdlib Require Import ZArith QArith Qround List String Ascii Bool Lia.
From Stdlib Require Import Permutation DecimalString.
Import ListNotations.

Local Open Scope Z_scope.

(** ** Python exceptions *)

Module Exceptions.

(** The builtin classes the engine meets, rasterio's I/O error, and the
    five classes of [src/exceptions.py]. *)
Inductive exc_class : Type :=
| BaseException | KeyboardInterrupt
| Exception
| ValueError | TypeError | IndexError | KeyError | AttributeError
| ZeroDivisionError | OverflowError
| OSError | FileNotFoundError | PermissionError
| RasterioIOError
| GISProcessingError
| ProjectionError | DataFormatError | GeometryError | FileAccessError.

Definition exc_class_eqb (c d : exc_class) : bool :=
  match c, d with
  | BaseException, BaseException | KeyboardInterrupt, KeyboardInterrupt
  | Exception, Exception
  | ValueError, ValueError | TypeError, TypeError
  | IndexError, IndexError | KeyError, KeyError
  | AttributeError, AttributeError
  | ZeroDivisionError, ZeroDivisionError | OverflowError, OverflowError
  | OSError, OSError | FileNotFoundError, FileNotFoundError
  | PermissionError, PermissionError
  | RasterioIOError, RasterioIOError
  | GISProcessingError, GISProcessingError
  | ProjectionError, ProjectionError | DataFormatError, DataFormatError
  | GeometryError, GeometryError | FileAccessError, FileAccessError => true
  | _, _ => false
  end.

(** The class each [class X(Base)] statement names as its base (the
    intermediate builtins LookupError and ArithmeticError are folded into
    [Exception]). *)
Definition base (c : exc_class) : option exc_class :=
  match c with
  | BaseException => None
  | KeyboardInterrupt => Some BaseException
  | Exception => Some BaseException
  | ValueError | TypeError | IndexError | KeyError | AttributeError
  | ZeroDivisionError | OverflowError | OSError => Some Exception
  | FileNotFoundError | PermissionError | RasterioIOError => Some OSError
  | GISProcessingError => Some Exception
  | ProjectionError | DataFormatError | GeometryError | FileAccessError =>
      Some GISProcessingError
  end.

(** The method resolution order: the class, then its bases, upwards. *)
Fixpoint mro_from (fuel : nat) (c : exc_class) : list exc_class :=
  match fuel with
  | O => [c]
  | S n => c :: match base c with
                | Some p => mro_from n p
                | None => []
                end
  end.

Definition mro (c : exc_class) : list exc_class := mro_from 4 c.

Definition issubclass (c d : exc_class) : bool :=
  existsb (exc_class_eqb d) (mro c).

(** An exception object: its class and [str(e)]. *)
Record exc : Type := mk_exc { cls : exc_class; msg : string }.

Definition isinstance (e : exc) (d : exc_class) : bool :=
  issubclass (cls e) d.

(** The error kinds of [src/exceptions.py]. *)
Definition engine_error_kinds : list exc_class :=
  [GISProcessingError; ProjectionError; DataFormatError; GeometryError;
   FileAccessError].

(** The result of running a piece of Python: a value or a raised
    exception. *)
Inductive result (A : Type) : Type :=
| Return (a : A)
| Raise (e : exc).
Arguments Return {A} a.
Arguments Raise {A} e.

(** [except d as e: handler e] applied to a result. *)
Definition catches (d : exc_class) {A} (r : result A) : bool :=
  match r with
  | Return _ => false
  | Raise e => isinstance e d
  end.

End Exceptions.
Import Exceptions.

(** ** Decimal rendering of integers, as [str(n)] and f-strings do it *)

Definition str_int (n : Z) : string := NilZero.string_of_int (Z.to_int n).

(** ** The CRS model ([src/data_models.py]) *)

Module DataModels.

Record ProjectionInfo : Type := mk_ProjectionInfo {
  epsg_code : option Z;
  proj4_string : option string;
  wkt_string : option string;
  authority : option string
}.

(** Python truthiness of an [Optional[int]] and of an [Optional[str]]. *)
Definition truthy_int (o : option Z) : bool :=
  match o with
  | Some n => negb (n =? 0)
  | None => false
  end.

Definition truthy_str (o : option string) : bool :=
  match o with
  | Some s => negb (String.eqb s EmptyString)
  | None => false
  end.

(** [ProjectionInfo.to_crs]; the result [None] is Python's [None]. *)
Definition to_crs (self : ProjectionInfo) : option string :=
  if truthy_int (epsg_code self) then
    match epsg_code self with
    | Some n => Some (String.append "EPSG:" (str_int n))
    | None => None
    end
  else if truthy_str (proj4_string self) then proj4_string self
  else if truthy_str (wkt_string self) then wkt_string self
  else None.

(** The resolution as the specification words it: the code form when a
    code is populated, else the raw string, else the marker "unknown". *)
Definition spec_to_crs (self : ProjectionInfo) : string :=
  match epsg_code self with
  | Some n => String.append "EPSG:" (str_int n)
  | None =>
      match proj4_string self with
      | Some s => s
      | None =>
          match wkt_string self with
          | Some s => s
          | None => "unknown"%string
          end
      end
  end.

(** A projection given by a raw string only. *)
Definition of_raw (s : string) : ProjectionInfo :=
  mk_ProjectionInfo None (Some s) None None.

End DataModels.

(** ** Datasets and the file system *)

Module Datasets.

(** The affine pixel-to-world transform, [Affine(a, b, c, d, e, f)]:
    x = a*col + b*row + c and y = d*col + e*row + f. *)
Record Affine : Type := mk_Affine {
  af_a : Q; af_b : Q; af_c : Q;
  af_d : Q; af_e : Q; af_f : Q
}.

(** [Affine.__mul__]: composition, the right operand applied first. *)
Definition affine_mul (s o : Affine) : Affine :=
  mk_Affine
    (af_a s * af_a o + af_b s * af_d o)
    (af_a s * af_b o + af_b s * af_e o)
    (af_a s * af_c o + af_b s * af_f o + af_c s)
    (af_d s * af_a o + af_e s * af_d o)
    (af_d s * af_b o + af_e s * af_e o)
    (af_d s * af_c o + af_e s * af_f o + af_f s)%Q.

(** [Affine.scale(sx, sy)]. *)
Definition affine_scale (sx sy : Q) : Affine :=
  mk_Affine sx 0 0 0 sy 0.


(** An open rasterio dataset: its metadata ([src.meta]) and its bands,
    each the row-major list of [height * width] pixels. *)
Record raster : Type := mk_raster {
  crs : option string;
  transform : Affine;
  width : Z;
  height : Z;
  dtype : string;
  nodata : option Z;
  compress : option string;
  bands : list (list Z)
}.

(** [src.count]. *)
Definition count (r : raster) : Z := Z.of_nat (List.length (bands r)).

(** [src.bounds] = (left, bottom, right, top). *)
Definition bounds (r : raster) : Q * Q * Q * Q :=
  (af_c (transform r),
   af_f (transform r) + af_e (transform r) * inject_Z (height r),
   af_c (transform r) + af_a (transform r) * inject_Z (width r),
   af_f (transform r))%Q.

(** A vector feature: the vertices of its geometry and its attribute
    row. *)
Record feature : Type := mk_feature {
  geometry : list (Q * Q);
  attributes : list (string * string)
}.

(** A GeoDataFrame: its CRS ([gdf.crs], possibly [None]) and its rows. *)
Record GeoDataFrame : Type := mk_GeoDataFrame {
  gdf_crs : option string;
  features : list feature
}.

(** What a path of the file system holds. [PartialFile] is a file that a
    failed write left behind. *)
Inductive file : Type :=
| RasterFile (r : raster)
| VectorFile (g : GeoDataFrame)
| PartialFile.

Definition path : Type := string.
Bind Scope string_scope with path.

Definition filesystem : Type := path -> option file.

Definition fs_put (p : path) (x : file) (fs : filesystem) : filesystem :=
  fun q => if String.eqb q p then Some x else fs q.

Definition fs_remove (p : path) (fs : filesystem) : filesystem :=
  fun q => if String.eqb q p then None else fs q.

(** [path.exists()]. *)
Definition fs_exists (p : path) (fs : filesystem) : bool :=
  match fs p with
  | Some _ => true
  | None => false
  end.

End Datasets.
Import Datasets.

(** ** Python code as state-passing over the file system *)

Module Py.

(** A computation reads and changes the file system and returns or
    raises; the changes made before an exception stay. *)
Definition M (A : Type) : Type := filesystem -> result A * filesystem.

Definition ret {A} (a : A) : M A := fun fs => (Return a, fs).

Definition raise {A} (c : exc_class) (m : string) : M A :=
  fun fs => (Raise (mk_exc c m), fs).

Definition bind {A B} (c : M A) (k : A -> M B) : M B :=
  fun fs =>
    match c fs with
    | (Return a, fs') => k a fs'
    | (Raise e, fs') => (Raise e, fs')
    end.

(** [try: body except Exception as e: handler e]. *)
Definition try_except {A} (body : M A) (handler : exc -> M A) : M A :=
  fun fs =>
    match body fs with
    | (Return a, fs') => (Return a, fs')
    | (Raise e, fs') =>
        if isinstance e Exception then handler e fs' else (Raise e, fs')
    end.

(** [try: body except: pass]. *)
Definition try_pass (body : M unit) : M unit :=
  fun fs =>
    match body fs with
    | (Return a, fs') => (Return a, fs')
    | (Raise _, fs') => (Return tt, fs')
    end.

(** Lifting a pure step that may raise. *)
Definition lift {A} (r : result A) : M A := fun fs => (r, fs).

Definition get_fs : M filesystem := fun fs => (Return fs, fs).

Definition set_fs (fs' : filesystem) : M unit := fun _ => (Return tt, fs').

End Py.
Import Py.

Declare Scope py_scope.
Delimit Scope py_scope with py.
Notation "x <- c ;; k" := (bind c (fun x => k))
  (at level 61, c at next level, right associativity) : py_scope.
Notation "c ;;; k" := (bind c (fun _ => k))
  (at level 61, right associativity) : py_scope.

(** f-string concatenation. *)
Notation "s +++ t" := (String.append s t)
  (at level 60, right associativity).

(** ** What the environment decides *)

Module Env.

(** The outcome of creating and writing an output file: success, or a
    failure with the writer's message that leaves a partial file behind or
    leaves the path untouched. *)
Inductive write_outcome : Type :=
| WriteOk
| WriteFail (leaves_partial : bool) (message : string).

Record env : Type := mk_env {
  (** [output_path.parent.mkdir(parents=True, exist_ok=True)] *)
  mkdir_error : option string;
  (** [rasterio.open(output_path, 'w', ...)] and [dst.write] *)
  write : write_outcome;
  (** [output_path.unlink()] *)
  unlink_error : option string
}.

(** [rasterio.open(p)] for reading. *)
Definition rasterio_open (p : path) : M raster :=
  (fs <- get_fs ;;
   match fs p with
   | Some (RasterFile r) => ret r
   | Some _ =>
       raise RasterioIOError
         (p +++ ": not recognized as a supported file format.")
   | None => raise RasterioIOError (p +++ ": No such file or directory")
   end)%py.

(** [gpd.read_file(p)]. *)
Definition read_file (p : path) : M GeoDataFrame :=
  (fs <- get_fs ;;
   match fs p with
   | Some (VectorFile g) => ret g
   | _ => raise OSError (p +++ ": cannot be opened as a vector dataset")
   end)%py.

(** Creating [p] and writing [x] to it, as the environment decides. *)
Definition write_file (w : write_outcome) (p : path) (x : file) : M unit :=
  (fs <- get_fs ;;
   match w with
   | WriteOk => set_fs (fs_put p x fs)
   | WriteFail partial m =>
       (if partial then set_fs (fs_put p PartialFile fs) else ret tt) ;;;
       raise RasterioIOError m
   end)%py.

(** [p.unlink()] of an existing file. *)
Definition unlink (ev : env) (p : path) : M unit :=
  (fs <- get_fs ;;
   match unlink_error ev with
   | None => set_fs (fs_remove p fs)
   | Some m => raise PermissionError m
   end)%py.

(** [p.parent.mkdir(parents=True, exist_ok=True)]; directories are not
    part of the file system model. *)
Definition mkdir_parent (ev : env) : M unit :=
  match mkdir_error ev with
  | None => ret tt
  | Some m => raise PermissionError m
  end.

End Env.
Import Env.

(** ** numpy on bands *)

Module Numpy.

(** [a[m] = v]: boolean-mask assignment of a scalar. *)
Fixpoint assign_where (a : list Z) (m : list bool) (v : Z) : list Z :=
  match a, m with
  | x :: a', b :: m' => (if b then v else x) :: assign_where a' m' v
  | _, _ => a
  end.

(** [m.sum()]: the number of selected pixels. *)
Fixpoint mask_sum (m : list bool) : Z :=
  match m with
  | [] => 0
  | b :: m' => (if b then 1 else 0) + mask_sum m'
  end.

(** [m1 | m2] and [m1 & m2], elementwise. *)
Fixpoint mask_or (m1 m2 : list bool) : list bool :=
  match m1, m2 with
  | b1 :: m1', b2 :: m2' => (b1 || b2) :: mask_or m1' m2'
  | _, _ => []
  end.

Fixpoint mask_and (m1 m2 : list bool) : list bool :=
  match m1, m2 with
  | b1 :: m1', b2 :: m2' => (b1 && b2) :: mask_and m1' m2'
  | _, _ => []
  end.

(** [~m]. *)
Definition mask_not (m : list bool) : list bool := map negb m.

(** [data != scalar] where the scalar may be [None], which no pixel
    equals. *)
Definition ne_scalar (s : option Z) (v : Z) : bool :=
  match s with
  | Some n => negb (v =? n)
  | None => true
  end.

(** [(data >= lo) & (data <= hi)] for one pixel. *)
Definition in_interval (lo hi : Q) (v : Z) : bool :=
  Qle_bool lo (inject_Z v) && Qle_bool (inject_Z v) hi.


(** [int(x)] of a float: truncation toward zero. *)
Definition int_of_float (x : Q) : Z := Z.quot (Qnum x) (Zpos (Qden x)).


(** [p / q] on integers: true division. *)
Definition truediv (p q : Z) : result Q :=
  if q =? 0 then Raise (mk_exc ZeroDivisionError "division by zero")
  else Return (inject_Z p / inject_Z q)%Q.

End Numpy.
Import Numpy.

(** ** rasterio's resampling kernels *)

Module Resampling.

(** The members of [rasterio.enums.Resampling]. *)
Inductive t : Type :=
| nearest | bilinear | cubic | cubic_spline | lanczos | average | mode
| gauss | max | min | med | q1 | q3 | sum | rms.

(** [getattr(Resampling, name)]. *)
Definition getattr (name : string) : result t :=
  if String.eqb name "nearest" then Return nearest
  else if String.eqb name "bilinear" then Return bilinear
  else if String.eqb name "cubic" then Return cubic
  else if String.eqb name "cubic_spline" then Return cubic_spline
  else if String.eqb name "lanczos" then Return lanczos
  else if String.eqb name "average" then Return average
  else if String.eqb name "mode" then Return mode
  else if String.eqb name "gauss" then Return gauss
  else if String.eqb name "max" then Return max
  else if String.eqb name "min" then Return min
  else if String.eqb name "med" then Return med
  else if String.eqb name "q1" then Return q1
  else if String.eqb name "q3" then Return q3
  else if String.eqb name "sum" then Return sum
  else if String.eqb name "rms" then Return rms
  else Raise (mk_exc AttributeError name).

End Resampling.

(** The five kernel names the engine enumerates. *)
Definition kernel_names : list string :=
  ["nearest"; "bilinear"; "cubic"; "average"; "mode"]%string.

(** Sequencing of pure steps that may raise. *)
Definition and_then {A B} (r : result A) (k : A -> result B) : result B :=
  match r with
  | Return a => k a
  | Raise e => Raise e
  end.

(** [d[k]] on a dict with string keys. *)
Fixpoint dict_get {V} (d : list (string * V)) (k : string) : result V :=
  match d with
  | [] => Raise (mk_exc KeyError k)
  | (k', v) :: d' => if String.eqb k' k then Return v else dict_get d' k
  end.

(** ** The raster processor ([src/raster_processor.py]) *)

Module RasterProcessor.

(** A classification rule: the closed interval [(min_val, max_val)] and the
    class [new_val].  A rule set is the dict in iteration order. *)
Definition rule : Type := (Q * Q) * Z.

Definition output_nodata : Z := -9999.

(** The mask of one rule, as both loops of [reclassify_raster] compute
    it. *)
Definition rule_mask (src_nodata : option Z) (data : list Z) (r : rule)
  : list bool :=
  let '((min_val, max_val), _) := r in
  match src_nodata with
  | Some nd =>
      map (fun v => in_interval min_val max_val v && negb (v =? nd)) data
  | None => map (fun v => in_interval min_val max_val v) data
  end.

(** One iteration of the first loop, on (reclassified, pixels_classified).
    The store [reclassified[mask] = new_val] into the int32 array is the
    plain assignment for a class that fits int32; the [try]/[except] around
    the iteration only comes into play for a class that does not. *)
Definition apply_rule (src_nodata : option Z) (data : list Z)
  (st : list Z * Z) (r : rule) : list Z * Z :=
  let mask := rule_mask src_nodata data r in
  let pixel_count := mask_sum mask in
  if 0 <? pixel_count
  then (assign_where (fst st) mask (snd r), snd st + pixel_count)
  else st.

(** The first loop, from [np.full_like(data, -9999, dtype=np.int32)]. *)
Definition classify (src_nodata : option Z) (data : list Z)
  (classification_rules : list rule) : list Z * Z :=
  fold_left (apply_rule src_nodata data) classification_rules
    (map (fun _ => -9999) data, 0).

(** The second loop: [classified_mask |= rule_mask]. *)
Definition classified_mask (src_nodata : option Z) (data : list Z)
  (classification_rules : list rule) : list bool :=
  fold_left (fun cm r => mask_or cm (rule_mask src_nodata data r))
    classification_rules (map (fun _ => false) data).

(** The steps after the zero-pixel check: source nodata and unclassified
    pixels are set to the output nodata. *)
Definition finalize (src_nodata : option Z) (data : list Z)
  (classification_rules : list rule) (reclassified : list Z) : list Z :=
  let reclassified1 :=
    match src_nodata with
    | Some nd =>
        assign_where reclassified (map (fun v => v =? nd) data) output_nodata
    | None => reclassified
    end in
  let cm := classified_mask src_nodata data classification_rules in
  let unclassified_pixels :=
    match src_nodata with
    | Some nd =>
        mask_and (mask_not cm) (map (fun v => negb (v =? nd)) data)
    | None => mask_not cm
    end in
  assign_where reclassified1 unclassified_pixels output_nodata.


(** [src.read(1)] with the [data.min()] of the log line that follows it. *)
Definition read_first_band (src : raster) : result (list Z) :=
  match bands src with
  | [] => Raise (mk_exc IndexError "band index 1 out of range (not in ())")
  | [] :: _ =>
      Raise (mk_exc ValueError
        "zero-size array to reduction operation minimum which has no identity")
  | data :: _ => Return data
  end.

(** The metadata update of [reclassify_raster]. *)
Definition reclassified_raster (src : raster) (reclassified : list Z)
  : raster :=
  mk_raster (crs src) (transform src) (width src) (height src)
    "int32" (Some output_nodata) (Some "lzw"%string) [reclassified].

(** [output_path.exists() and output_path.stat().st_size > 0]. *)
Definition created_properly (p : path) (fs : filesystem) : bool :=
  match fs p with
  | Some (RasterFile _) | Some (VectorFile _) => true
  | Some PartialFile | None => false
  end.

(** The inner [try] around the write, with its [except] clause. *)
Definition write_reclassified (ev : env) (output_path : path)
  (src : raster) (reclassified : list Z) : M bool :=
  (try_except
     (write_file (write ev) output_path
        (RasterFile (reclassified_raster src reclassified)) ;;;
      fs <- get_fs ;;
      if created_properly output_path fs then ret true
      else raise GISProcessingError
             "Reclassified file was not created properly")
     (fun e => raise GISProcessingError
                 ("Failed to write reclassified output: " +++ msg e)))%py.

(** The body of the outer [try]. *)
Definition reclassify_try (ev : env) (input_path output_path : path)
  (classification_rules : list rule) : M bool :=
  (fs <- get_fs ;;
   if negb (fs_exists input_path fs)
   then raise FileNotFoundError ("Input raster not found: " +++ input_path)
   else
   match classification_rules with
   | [] => raise ValueError "No classification rules provided"
   | _ :: _ =>
   src <- rasterio_open input_path ;;
   data <- try_except (lift (read_first_band src))
             (fun e => raise GISProcessingError
                         ("Failed to read input data: " +++ msg e)) ;;
   let '(reclassified, pixels_classified) :=
     classify (nodata src) data classification_rules in
   if pixels_classified =? 0
   then raise ValueError
          "No pixels were classified - check your classification rules"
   else
   let reclassified :=
     finalize (nodata src) data classification_rules reclassified in
   mkdir_parent ev ;;;
   write_reclassified ev output_path src reclassified
   end)%py.

(** The outer [except Exception as e]: clean up partial output, then
    raise. *)
Definition reclassify_except (ev : env) (output_path : path) (e : exc)
  : M bool :=
  (fs <- get_fs ;;
   (if fs_exists output_path fs
    then try_pass (unlink ev output_path)
    else ret tt) ;;;
   raise GISProcessingError
     ("Raster reclassification failed: " +++ msg e))%py.

Definition reclassify_raster (ev : env) (input_path output_path : path)
  (classification_rules : list rule) : M bool :=
  try_except
    (reclassify_try ev input_path output_path classification_rules)
    (reclassify_except ev output_path).

(** [a.crs != b.crs]. *)
Definition crs_ne (c1 c2 : option string) : bool :=
  match c1, c2 with
  | Some s1, Some s2 => negb (String.eqb s1 s2)
  | None, None => false
  | _, _ => true
  end.

(** [src_data[i][~boolean_mask] = src.nodata] for one band [i]: the mask
    must have the band's shape, and [None] cannot be stored in an integer
    array. *)
Definition mask_band (src mask_src : raster) (selected : list bool)
  (band : list Z) : result (list Z) :=
  if negb ((height src =? height mask_src) && (width src =? width mask_src))
  then Raise (mk_exc IndexError
         "boolean index did not match indexed array")
  else
    match nodata src with
    | None => Raise (mk_exc TypeError
                "int() argument must be a number, not 'NoneType'")
    | Some nd => Return (assign_where band selected nd)
    end.

(** The loop over [range(src_data.shape[0])]. *)
Fixpoint mask_bands (src mask_src : raster) (selected : list bool)
  (src_data : list (list Z)) : result (list (list Z)) :=
  match src_data with
  | [] => Return []
  | band :: rest =>
      and_then (mask_band src mask_src selected band) (fun band' =>
      and_then (mask_bands src mask_src selected rest) (fun rest' =>
      Return (band' :: rest')))
  end.

(** [mask_src.read(1)]. *)
Definition read_band1 (r : raster) : result (list Z) :=
  match bands r with
  | [] => Raise (mk_exc IndexError "band index 1 out of range (not in ())")
  | data :: _ => Return data
  end.

(** The dataset written with [src.meta.copy()] and the given bands. *)
Definition with_bands (src : raster) (data : list (list Z)) : raster :=
  mk_raster (crs src) (transform src) (width src) (height src)
    (dtype src) (nodata src) (compress src) data.

Definition clip_raster_with_raster (ev : env)
  (source_path mask_path output_path : path) : M bool :=
  (try_except
     (src <- rasterio_open source_path ;;
      mask_src <- rasterio_open mask_path ;;
      if crs_ne (crs src) (crs mask_src)
      then raise ProjectionError
             "Both Raster must have the same CRS for clipping"
      else
      mask_data <- lift (read_band1 mask_src) ;;
      let boolean_mask := map (ne_scalar (nodata mask_src)) mask_data in
      src_data <- lift (mask_bands src mask_src (mask_not boolean_mask)
                          (bands src)) ;;
      write_file (write ev) output_path
        (RasterFile (with_bands src src_data)) ;;;
      ret true)
     (fun e => raise GISProcessingError
                 ("Clipping raster user raster failed: " +++ msg e)))%py.

(** *** Operations that call rasterio's warping *)

Section Warping.

(** [rasterio.warp.calculate_default_transform(src_crs, dst_crs, width,
    height, left, bottom, right, top)]: the destination transform, width
    and height, or an error. *)
Variable calculate_default_transform :
  option string -> string -> Z -> Z -> Q * Q * Q * Q ->
  result (Affine * Z * Z).

(** [rasterio.warp.reproject] of band [i] of the source into band [i] of
    the destination dataset, given [src_transform], [dst_crs] and the
    kernel: the destination band, or an error. *)
Variable warp_reproject :
  raster -> Z -> raster -> Affine -> string -> Resampling.t ->
  result (list Z).

(** [src.read(out_shape=(count, new_height, new_width), resampling=k)]. *)
Variable read_resampled :
  raster -> Z -> Z -> Resampling.t -> result (list (list Z)).

(** The dict [resampling_map] of [reproject_raster]. *)
Definition resampling_map : list (string * Resampling.t) :=
  [("nearest", Resampling.nearest); ("bilinear", Resampling.bilinear);
   ("cubic", Resampling.cubic); ("average", Resampling.average);
   ("mode", Resampling.mode)]%string.

(** The metadata update of [reproject_raster]; the destination has no band
    written yet. *)
Definition reprojected_meta (src : raster) (target_crs : string)
  (t : Affine) (w h : Z) : raster :=
  mk_raster (Some target_crs) t w h (dtype src) (nodata src) (compress src)
    [].

(** The loop [for i in range(1, src.count + 1)]. *)
Fixpoint reproject_bands (src kwargs : raster) (t : Affine)
  (target_crs resampling_method : string) (indexes : list Z)
  : result (list (list Z)) :=
  match indexes with
  | [] => Return []
  | i :: rest =>
      and_then (dict_get resampling_map resampling_method) (fun kernel =>
      and_then (warp_reproject src i kwargs t target_crs kernel) (fun band =>
      and_then (reproject_bands src kwargs t target_crs resampling_method
                  rest) (fun bands' =>
      Return (band :: bands'))))
  end.

(** [range(1, src.count + 1)]. *)
Definition band_indexes (src : raster) : list Z :=
  map Z.of_nat (seq 1 (List.length (bands src))).

Definition reproject_raster (ev : env) (input_path output_path : path)
  (target_crs resampling_method : string) : M bool :=
  (try_except
     (src <- rasterio_open input_path ;;
      twh <- lift (calculate_default_transform (crs src) target_crs
                      (width src) (height src) (bounds src)) ;;
      let '(t, w, h) := twh in
      let kwargs := reprojected_meta src target_crs t w h in
      (* the destination is created, then filled band by band *)
      write_file (write ev) output_path PartialFile ;;;
      data <- lift (reproject_bands src kwargs t target_crs
                      resampling_method (band_indexes src)) ;;
      fs <- get_fs ;;
      set_fs (fs_put output_path (RasterFile (with_bands kwargs data)) fs) ;;;
      ret true)
     (fun e => raise GISProcessingError
                 ("Raster reprojection failed: " +++ msg e)))%py.

(** The metadata update of [resample_raster]. *)
Definition resampled_raster (src : raster) (new_width new_height : Z)
  (t : Affine) (data : list (list Z)) : raster :=
  mk_raster (crs src) t new_width new_height (dtype src) (nodata src)
    (compress src) data.

Definition resample_raster (ev : env) (input_path output_path : path)
  (scale_factor : Q) (resampling_method : string) : M bool :=
  (try_except
     (src <- rasterio_open input_path ;;
      let new_width := int_of_float (inject_Z (width src) * scale_factor) in
      let new_height := int_of_float (inject_Z (height src) * scale_factor) in
      sx <- lift (truediv (width src) new_width) ;;
      sy <- lift (truediv (height src) new_height) ;;
      let t := affine_mul (transform src) (affine_scale sx sy) in
      kernel <- lift (Resampling.getattr resampling_method) ;;
      data <- lift (read_resampled src new_height new_width kernel) ;;
      write_file (write ev) output_path
        (RasterFile (resampled_raster src new_width new_height t data)) ;;;
      ret true)
     (fun e => raise GISProcessingError
                 ("Raster resampling failed: " +++ msg e)))%py.

End Warping.

End RasterProcessor.

(** ** The vector processor ([src/vector_processor.py]) *)

Module VectorProcessor.

Section Union.

(** pyproj's transformation of one coordinate pair from one CRS to
    another. *)
Variable pyproj_transform : string -> string -> Q * Q -> Q * Q.

(** [gdf.to_crs(target)]: every geometry is transformed, rows and
    attributes stay; a frame without a CRS cannot be transformed, and
    neither can one be sent to no CRS at all. *)
Definition to_crs (gdf : GeoDataFrame) (target : option string)
  : result GeoDataFrame :=
  match gdf_crs gdf, target with
  | Some from, Some to =>
      Return (mk_GeoDataFrame (Some to)
        (map (fun ft => mk_feature
                (map (pyproj_transform from to) (geometry ft))
                (attributes ft))
           (features gdf)))
  | None, _ =>
      Raise (mk_exc ValueError
        "Cannot transform naive geometries.  Please set a crs on the object first.")
  | Some _, None =>
      Raise (mk_exc ValueError "Must pass either crs or epsg.")
  end.

(** [gdf.crs != target_crs]. *)
Definition crs_ne (c1 c2 : option string) : bool :=
  RasterProcessor.crs_ne c1 c2.




End Union.

End VectorProcessor.

(** ** Paths ([pathlib]) *)

Module PathLib.

(** A path is the string [str(p)] of a pathlib path in POSIX form; the
    model covers ASCII paths. *)

(** [c.lower()] for one character. *)
Definition lower_ascii (c : ascii) : ascii :=
  let n := nat_of_ascii c in
  if (Nat.leb 65 n && Nat.leb n 90)%bool then ascii_of_nat (n + 32) else c.

(** [s.lower()]. *)
Fixpoint lower (s : string) : string :=
  match s with
  | EmptyString => EmptyString
  | String c s' => String (lower_ascii c) (lower s')
  end.

Definition is_slash (c : ascii) : bool := Ascii.eqb c "/".
Definition is_dot (c : ascii) : bool := Ascii.eqb c ".".

Fixpoint has_slash (s : string) : bool :=
  match s with
  | EmptyString => false
  | String c s' => is_slash c || has_slash s'
  end.

(** [p.name]: the last component. *)
Fixpoint name (p : string) : string :=
  match p with
  | EmptyString => EmptyString
  | String c p' =>
      if has_slash p' then name p'
      else if is_slash c then p' else p
  end.

(** [n[n.rfind('.'):]] when [n] has a dot. *)
Fixpoint from_last_dot (n : string) : option string :=
  match n with
  | EmptyString => None
  | String c n' =>
      match from_last_dot n' with
      | Some t => Some t
      | None => if is_dot c then Some n else None
      end
  end.

(** [p.suffix]: with [i = name.rfind('.')], [name[i:]] when
    [0 < i < len(name) - 1], and the empty string otherwise. *)
Definition suffix (p : string) : string :=
  let n := name p in
  match from_last_dot n with
  | Some t =>
      if (Nat.ltb (String.length t) (String.length n)
          && Nat.ltb 1 (String.length t))%bool
      then t else EmptyString
  | None => EmptyString
  end.

(** [s[:-k]]. *)
Definition drop_last (k : nat) (s : string) : string :=
  String.substring 0 (String.length s - k) s.

(** [p.with_suffix(sfx)] for a path with a name and a valid [sfx]. *)
Definition with_suffix (p sfx : string) : string :=
  drop_last (String.length (suffix p)) p +++ sfx.

End PathLib.

(** ** [try] with an [except] clause for one class *)

(** [try: body except d as e: handler e]. *)
Definition try_except_class {A} (d : exc_class) (body : M A)
  (handler : exc -> M A) : M A :=
  fun fs =>
    match body fs with
    | (Return a, fs') => (Return a, fs')
    | (Raise e, fs') =>
        if isinstance e d then handler e fs' else (Raise e, fs')
    end.

(** [str(crs)] of a CRS that may be [None]. *)
Definition str_crs (c : option string) : string :=
  match c with
  | Some s => s
  | None => "None"%string
  end.

(** ** The file manager ([src/file_manager.py]) *)

Module FileManager.

Definition RASTER_EXTENSIONS : list string :=
  [".tif"; ".tiff"; ".img"; ".jpg"; ".jpeg"; ".png"; ".bmp"; ".nc"; ".cdf";
   ".netcdf"]%string.

Definition VECTOR_EXTENSIONS : list string :=
  [".shp"; ".kml"; ".geojson"; ".gpkg"; ".gml"; ".json"; ".kmz"]%string.

(** [s in extensions]. *)
Definition mem (s : string) (l : list string) : bool :=
  existsb (String.eqb s) l.

Definition detect_file_type (file_path : path) : result string :=
  let suffix := PathLib.lower (PathLib.suffix file_path) in
  if mem suffix RASTER_EXTENSIONS then Return "raster"%string
  else if mem suffix VECTOR_EXTENSIONS then Return "vector"%string
  else Raise (mk_exc DataFormatError
                ("Unsupported file format: " +++ suffix)).

(** What the operating system says of an existing path: whether it is a
    regular file, and whether opening it for reading is refused. *)
Record access : Type := mk_access {
  is_file : path -> bool;
  permission_denied : path -> bool
}.

Definition validate_file_access (ac : access) (file_path : path) : M bool :=
  (fs <- get_fs ;;
   if negb (fs_exists file_path fs)
   then raise FileAccessError ("File not found: " +++ file_path)
   else if negb (is_file ac file_path)
   then raise FileAccessError ("Path is not a file: " +++ file_path)
   else
     try_except_class PermissionError
       (if permission_denied ac file_path
        then raise PermissionError ("Permission denied: " +++ file_path)
        else ret tt)
       (fun _ => raise FileAccessError
                   ("Permission denied: " +++ file_path)) ;;;
     ret true)%py.

End FileManager.

(** ** The dataset wrappers ([src/data_models.py]) *)

Module DatasetModels.

Import DataModels.

Record BoundingBox : Type := mk_BoundingBox {
  min_x : Q; min_y : Q; max_x : Q; max_y : Q;
  bb_crs : ProjectionInfo
}.

Record RasterDataset : Type := mk_RasterDataset {
  rd_file_path : path;
  rd_crs : ProjectionInfo;
  rd_bounds : BoundingBox;
  rd_transform : Affine;
  rd_width : Z;
  rd_height : Z;
  rd_band_count : Z;
  rd_dtype : string;
  rd_metadata : raster
}.

Record VectorDataset : Type := mk_VectorDataset {
  vd_file_path : path;
  vd_crs : ProjectionInfo;
  vd_geometry_type : string;
  vd_feature_count : Z;
  vd_bounds : BoundingBox
}.

(** The two variants [FileManager.load_dataset] can return. *)
Inductive GeoDataset : Type :=
| Raster (d : RasterDataset)
| Vector (d : VectorDataset).

Section Metadata.

(** [crs.to_epsg()] and [crs.to_wkt()] of a CRS object. *)
Variable to_epsg : string -> option Z.
Variable to_wkt : string -> string.

(** [geom_type] of one row, and [gdf.total_bounds]. *)
Variable geom_type : feature -> string.
Variable total_bounds : list feature -> Q * Q * Q * Q.

(** [src.dtypes[0]]. *)
Definition first_dtype (src : raster) : result string :=
  match bands src with
  | [] => Raise (mk_exc IndexError "tuple index out of range")
  | _ :: _ => Return (dtype src)
  end.

(** [RasterDataset.__init__], that is [_load_metadata]. *)
Definition RasterDataset_init (file_path : path) : M RasterDataset :=
  (try_except
     (src <- rasterio_open file_path ;;
      let crs :=
        mk_ProjectionInfo
          (match Datasets.crs src with
           | Some c => to_epsg c
           | None => None
           end)
          None
          (match Datasets.crs src with
           | Some c => Some (to_wkt c)
           | None => None
           end)
          None in
      let '(b_left, b_bottom, b_right, b_top) := Datasets.bounds src in
      let bounds := mk_BoundingBox b_left b_bottom b_right b_top crs in
      dt <- lift (first_dtype src) ;;
      ret (mk_RasterDataset file_path crs bounds (transform src)
             (width src) (height src) (Datasets.count src) dt
             (RasterProcessor.with_bands src [])))
     (fun e => raise ValueError ("Failed to load raster: " +++ msg e)))%py.

(** [sample_gdf.geometry.geom_type[0]] of the rows read with [rows=1]. *)
Definition first_geom_type (sample : list feature) : result string :=
  match sample with
  | [] => Raise (mk_exc KeyError "0")
  | ft :: _ => Return (geom_type ft)
  end.

(** [gpd.read_file(p, rows=n)]. *)
Definition read_file_rows (p : path) (n : nat) : M GeoDataFrame :=
  (gdf <- read_file p ;;
   ret (mk_GeoDataFrame (gdf_crs gdf) (firstn n (features gdf))))%py.

(** [VectorDataset.__init__], that is [_load_metadata]. *)
Definition VectorDataset_init (file_path : path) : M VectorDataset :=
  (try_except
     (sample_gdf <- read_file_rows file_path 1 ;;
      let crs :=
        mk_ProjectionInfo
          (match gdf_crs sample_gdf with
           | Some c => to_epsg c
           | None => None
           end)
          None None None in
      gt <- lift (first_geom_type (features sample_gdf)) ;;
      full_gdf <- read_file file_path ;;
      let '(x0, y0, x1, y1) := total_bounds (features full_gdf) in
      ret (mk_VectorDataset file_path crs gt
             (Z.of_nat (List.length (features full_gdf)))
             (mk_BoundingBox x0 y0 x1 y1 crs)))
     (fun e => raise ValueError ("Failed to load vector data: " +++ msg e)))%py.

(** [FileManager.load_dataset]; the result [None] is Python's [None]. *)
Definition load_dataset (ac : FileManager.access) (file_path : path)
  : M (option GeoDataset) :=
  (FileManager.validate_file_access ac file_path ;;;
   file_type <- lift (FileManager.detect_file_type file_path) ;;
   if String.eqb file_type "raster"
   then d <- RasterDataset_init file_path ;; ret (Some (Raster d))
   else if String.eqb file_type "vector"
   then d <- VectorDataset_init file_path ;; ret (Some (Vector d))
   else ret None)%py.

End Metadata.

End DatasetModels.

(** ** The descriptions of a file ([src/file_manager.py]) *)

Module FileInfo.

(** The entries of the dictionary of [get_raster_info] that the dataset
    model carries; the driver name is not part of it. *)
Record raster_info : Type := mk_raster_info {
  ri_width : Z;
  ri_height : Z;
  ri_bands : Z;
  ri_dtype : string;
  ri_crs : string;
  ri_transform : Affine;
  ri_bounds : Q * Q * Q * Q;
  ri_nodata : option Z;
  ri_compression : option string
}.

(** The entries of the dictionary of [get_vector_info] up to the bounds;
    the column names and the area are not part of the model. *)
Record vector_info : Type := mk_vector_info {
  vi_format : string;
  vi_feature_count : Z;
  vi_geometry_type : string;
  vi_crs : string;
  vi_bounds : Q * Q * Q * Q
}.

(** [str(crs) if crs else 'Unknown']. *)
Definition crs_or_Unknown (c : option string) : string :=
  match c with
  | Some s => s
  | None => "Unknown"%string
  end.

Section Info.

Variable geom_type : feature -> string.
Variable total_bounds : list feature -> Q * Q * Q * Q.

Definition get_raster_info (file_path : path) : M raster_info :=
  (try_except
     (src <- rasterio_open file_path ;;
      dt <- lift (DatasetModels.first_dtype src) ;;
      ret (mk_raster_info (width src) (height src) (Datasets.count src) dt
             (crs_or_Unknown (crs src)) (transform src)
             (Datasets.bounds src) (nodata src) (compress src)))
     (fun e => raise DataFormatError
                 ("Cannot read raster info: " +++ msg e)))%py.

Definition get_vector_info (file_path : path) : M vector_info :=
  (try_except
     (gdf <- read_file file_path ;;
      ret (mk_vector_info (PathLib.suffix file_path)
             (Z.of_nat (List.length (features gdf)))
             (match features gdf with
              | ft :: _ => geom_type ft
              | [] => "Empty"%string
              end)
             (crs_or_Unknown (gdf_crs gdf))
             (total_bounds (features gdf))))
     (fun e => raise DataFormatError
                 ("Cannot read vector info: " +++ msg e)))%py.

End Info.

End FileInfo.

(** ** The format handlers ([src/format_handlers.py]) *)

Module FormatHandlers.

Import FileManager.

(** The concrete handler classes. *)
Inductive handler : Type :=
| GeoTiffHandler | ShapefileHandler | GeoJSONHandler | KMZHandler
| NetCDFHandler.

(** [handler.can_handle(file_path)]. *)
Definition can_handle (h : handler) (file_path : path) : bool :=
  let sfx := PathLib.lower (PathLib.suffix file_path) in
  match h with
  | GeoTiffHandler => mem sfx [".tif"; ".tiff"]%string
  | ShapefileHandler => String.eqb sfx ".shp"
  | GeoJSONHandler => mem sfx [".geojson"; ".json"]%string
  | KMZHandler => String.eqb sfx ".kmz"
  | NetCDFHandler => mem sfx [".nc"; ".cdf"; ".netcdf"]%string
  end.

Record FormatFactory : Type := mk_FormatFactory {
  handlers : list handler
}.

(** [FormatFactory.__init__]. *)
Definition FormatFactory_init : FormatFactory :=
  mk_FormatFactory
    [GeoTiffHandler; ShapefileHandler; GeoJSONHandler; KMZHandler;
     NetCDFHandler].

(** The loop of [get_handler]. *)
Fixpoint first_handler (hs : list handler) (file_path : path)
  : option handler :=
  match hs with
  | [] => None
  | h :: hs' =>
      if can_handle h file_path then Some h else first_handler hs' file_path
  end.

Definition get_handler (self : FormatFactory) (file_path : path)
  : result handler :=
  match first_handler (handlers self) file_path with
  | Some h => Return h
  | None =>
      Raise (mk_exc DataFormatError
               ("No handler available for " +++ PathLib.suffix file_path))
  end.

(** [try: body; return True] followed by [except Exception: return
    False]. *)
Definition returns_success (body : M unit) : M bool :=
  (try_except (body ;;; ret true) (fun _ => ret false))%py.

(** [KMZHandler.write]: a [.kmz] target is replaced by the [.kml] path. *)
Definition KMZHandler_write (ev : env) (data : GeoDataFrame)
  (file_path : path) : M bool :=
  returns_success
    (let file_path :=
       if String.eqb (PathLib.lower (PathLib.suffix file_path)) ".kmz"
       then PathLib.with_suffix file_path ".kml"
       else file_path in
     write_file (write ev) file_path (VectorFile data)).

End FormatHandlers.

(** ** The validators ([src/validators.py]) *)

Module Validators.

Section Validate.

(** [geometry.isna()] of one row. *)
Variable isna : feature -> bool.


Definition validate_vector_file (file_path : path) : M bool :=
  (try_except
     (gdf <- read_file file_path ;;
      match features gdf with
      | [] => raise DataFormatError "Vector file contains no features"
      | _ :: _ =>
          if forallb isna (features gdf)
          then raise DataFormatError
                 "Vector file contains no valid geometries"
          else ret true
      end)
     (fun e => raise DataFormatError
                 ("Cannot read vector file: " +++ msg e)))%py.

(** The CRS of a file, read the way its detected type asks for. *)
Definition read_crs (file_type : string) (file_path : path)
  : M (option string) :=
  (if String.eqb file_type "raster"
   then src <- rasterio_open file_path ;; ret (crs src)
   else gdf <- read_file file_path ;; ret (gdf_crs gdf))%py.

Definition validate_crs_compatibility (file1_path file2_path : path)
  : M bool :=
  (try_except
     (type1 <- lift (FileManager.detect_file_type file1_path) ;;
      type2 <- lift (FileManager.detect_file_type file2_path) ;;
      crs1 <- read_crs type1 file1_path ;;
      crs2 <- read_crs type2 file2_path ;;
      if RasterProcessor.crs_ne crs1 crs2
      then raise ProjectionError
             ("CRS mismatch: " +++ str_crs crs1 +++ " vs " +++ str_crs crs2)
      else ret true)
     (fun e => raise ProjectionError
                 ("CRS validation failed: " +++ msg e)))%py.

End Validate.

End Validators.

(** ** The other vector operations ([src/vector_processor.py]) *)

Module VectorOverlay.

Section Overlay.

Variable pyproj_transform : string -> string -> Q * Q -> Q * Q.

(** [pyproj.CRS.from_user_input(target_crs)]: the CRS a string names, or
    an error. *)
Variable from_user_input : string -> result string.

(** [gdf.clip(other)] and [gpd.overlay(gdf, other, how=how)]. *)
Variable gdf_clip : GeoDataFrame -> GeoDataFrame -> result GeoDataFrame.
Variable overlay :
  string -> GeoDataFrame -> GeoDataFrame -> result GeoDataFrame.

(** [if gdf.crs != other.crs: other = other.to_crs(gdf.crs)]. *)
Definition to_crs_of (gdf other : GeoDataFrame) : result GeoDataFrame :=
  if RasterProcessor.crs_ne (gdf_crs gdf) (gdf_crs other)
  then VectorProcessor.to_crs pyproj_transform other (gdf_crs gdf)
  else Return other.

(** The shape the four binary operations share. *)
Definition binary_operation (ev : env)
  (operation : GeoDataFrame -> GeoDataFrame -> result GeoDataFrame)
  (failure : string) (input_path other_path output_path : path) : M bool :=
  (try_except
     (gdf <- read_file input_path ;;
      other_gdf <- read_file other_path ;;
      other_gdf <- lift (to_crs_of gdf other_gdf) ;;
      out <- lift (operation gdf other_gdf) ;;
      write_file (write ev) output_path (VectorFile out) ;;;
      ret true)
     (fun e => raise GISProcessingError (failure +++ msg e)))%py.

Definition clip_vector (ev : env) (input_path clip_path output_path : path)
  : M bool :=
  binary_operation ev gdf_clip "Failed to clip: "
    input_path clip_path output_path.

Definition erase_vector (ev : env)
  (input_path erase_path output_path : path) : M bool :=
  binary_operation ev (overlay "difference") "Failed to erase vector: "
    input_path erase_path output_path.

Definition intersection_vectors (ev : env)
  (input1_path input2_path output_path : path) : M bool :=
  binary_operation ev (overlay "intersection")
    "Intersection operation failed: " input1_path input2_path output_path.

Definition symmetric_difference_vectors (ev : env)
  (input1_path input2_path output_path : path) : M bool :=
  binary_operation ev (overlay "symmetric_difference")
    "Symmetrical difference failed: " input1_path input2_path output_path.

(** [gdf.to_crs(target_crs)] with a CRS string: a frame without CRS
    cannot be transformed, the string must name a CRS, and a frame that is
    in that CRS already is returned as it is. *)
Definition to_crs_string (gdf : GeoDataFrame) (target_crs : string)
  : result GeoDataFrame :=
  match gdf_crs gdf with
  | None =>
      Raise (mk_exc ValueError
        "Cannot transform naive geometries.  Please set a crs on the object first.")
  | Some from =>
      and_then (from_user_input target_crs) (fun to =>
      if String.eqb from to then Return gdf
      else VectorProcessor.to_crs pyproj_transform gdf (Some to))
  end.

Definition reproject_vector (ev : env) (input_path output_path : path)
  (target_crs : string) : M bool :=
  (try_except
     (gdf <- read_file input_path ;;
      reprojected <- lift (to_crs_string gdf target_crs) ;;
      write_file (write ev) output_path (VectorFile reprojected) ;;;
      ret true)
     (fun e => raise GISProcessingError
                 ("Failed to reproject vector: " +++ msg e)))%py.

End Overlay.

End VectorOverlay.

(** ** Clipping a raster with a vector boundary
    ([src/raster_processor.py]) *)

Module RasterVectorClip.

Section Clip.

Variable pyproj_transform : string -> string -> Q * Q -> Q * Q.

(** [rasterio.mask.mask(src, geometries, crop=True, nodata=nodata)]: the
    clipped bands, their height and width, and the transform of the
    cropped grid. *)
Variable rasterio_mask :
  raster -> list (list (Q * Q)) -> option Z ->
  result (list (list Z) * Z * Z * Affine).


End Clip.

End RasterVectorClip.

(** ** The rule table of the raster panel ([src/raster_panel.py]) *)

Module RasterPanel.

(** A row of the table after [float(...)], [float(...)] and [int(...)] of
    its three cells; [None] is a cell that is missing or does not
    parse. *)
Definition row : Type := option Q * option Q * option Z.

(** Equality of two keys [(min_val, max_val)]. *)
Definition key_eqb (k1 k2 : Q * Q) : bool :=
  Qeq_bool (fst k1) (fst k2) && Qeq_bool (snd k1) (snd k2).

(** [rules[key] = new_val] on a dict in insertion order: an existing key
    keeps its place and takes the new value. *)
Fixpoint dict_set (rules : list RasterProcessor.rule) (key : Q * Q)
  (new_val : Z) : list RasterProcessor.rule :=
  match rules with
  | [] => [(key, new_val)]
  | (k, v) :: rules' =>
      if key_eqb k key then (k, new_val) :: rules'
      else (k, v) :: dict_set rules' key new_val
  end.

(** One iteration of the loop of [get_reclass_rules]. *)
Definition add_row (rules : list RasterProcessor.rule) (r : row)
  : list RasterProcessor.rule :=
  match r with
  | (Some min_val, Some max_val, Some new_val) =>
      dict_set rules (min_val, max_val) new_val
  | _ => rules
  end.

Definition get_reclass_rules (table : list row) : list RasterProcessor.rule :=
  fold_left add_row table [].

End RasterPanel.

(** ** The extent of the map viewer ([src/simple_map_viewer.py]) *)

Module MapViewer.








End MapViewer.

(** * Vocabulary of the properties *)

Module Reclass.

Import RasterProcessor.







End Reclass.

(** ** Which exceptions a computation can raise *)

Definition is_Exception (e : exc) : Prop := isinstance e Exception = true.

Definition raises_only {A} (P : exc -> Prop) (c : M A) : Prop :=
  forall fs e fs', c fs = (Raise e, fs') -> P e.

(** ** World extent of a pixel grid *)




(** ** Vector union *)



(** ** Frame conditions and error kinds of whole operations *)

(** A computation leaves every path other than [p] as it found it,
    whatever its outcome. *)
Definition changes_only {A} (p : path) (c : M A) : Prop :=
  forall fs r fs', c fs = (r, fs') -> forall q, q <> p -> fs' q = fs q.

(** The error is a GISProcessingError proper whose message opens with
    [prefix]. *)
Definition wraps (prefix : string) (e : exc) : Prop :=
  cls e = GISProcessingError /\ exists m, msg e = prefix +++ m.

(** A library call that may raise raises ordinary exceptions only. *)
Definition raises_Exception {A} (r : result A) : Prop :=
  forall e, r = Raise e -> is_Exception e.

(** The pure part of clip_raster_with_raster, between opening the two
    datasets and writing: the CRS check, the mask and the masked bands. *)
Definition clip_data (src mask_src : raster) : result (list (list Z)) :=
  if RasterProcessor.crs_ne (crs src) (crs mask_src)
  then Raise (mk_exc ProjectionError
                "Both Raster must have the same CRS for clipping")
  else
    and_then (RasterProcessor.read_band1 mask_src) (fun mask_data =>
    RasterProcessor.mask_bands src mask_src
      (mask_not (map (ne_scalar (nodata mask_src)) mask_data))
      (bands src)).

(** Two transforms with equal coefficients. *)
Definition affine_eq (t u : Affine) : Prop :=
  (af_a t == af_a u /\ af_b t == af_b u /\ af_c t == af_c u /\
   af_d t == af_d u /\ af_e t == af_e u /\ af_f t == af_f u)%Q.

(** ** Vector union over any number of inputs *)



(** Exactly one of two CRSs is missing. *)
Definition one_crs_missing (c1 c2 : option string) : Prop :=
  (c1 = None /\ c2 <> None) \/ (c1 <> None /\ c2 = None).


(** ** Formats *)

(** The handlers whose [read] opens a raster ([rasterio.open],
    [rxr.open_rasterio]); the others read with [gpd.read_file]. *)
Definition reads_rasters (h : FormatHandlers.handler) : bool :=
  match h with
  | FormatHandlers.GeoTiffHandler | FormatHandlers.NetCDFHandler => true
  | _ => false
  end.

(** The extensions the file manager accepts and no handler takes. *)
Definition raster_without_handler : list string :=
  [".img"; ".jpg"; ".jpeg"; ".png"; ".bmp"]%string.

Definition vector_without_handler : list string :=
  [".kml"; ".gpkg"; ".gml"]%string.

(** ** The rule table *)

(** [rules.get(key)]: the class stored under a key. *)
Definition class_of (rules : list RasterProcessor.rule) (key : Q * Q)
  : option Z :=
  match find (fun r => RasterPanel.key_eqb (fst r) key) rules with
  | Some r => Some (snd r)
  | None => None
  end.

(** The class in the last row of the table that parses and holds the
    interval [key]. *)
Definition last_row_with (table : list RasterPanel.row) (key : Q * Q)
  : option Z :=
  fold_left
    (fun found r =>
       match r with
       | (Some min_val, Some max_val, Some new_val) =>
           if RasterPanel.key_eqb (min_val, max_val) key then Some new_val
           else found
       | _ => found
       end)
    table None.

(** No two rules have the same interval. *)
Definition distinct_keys (rules : list RasterProcessor.rule) : Prop :=
  ForallOrdPairs
    (fun r1 r2 => RasterPanel.key_eqb (fst r1) (fst r2) = false) rules.

(** ** The extent of the map *)



(** ** Tactics for the case analysis on file extensions *)

Ltac name_suffix :=
  repeat match goal with
  | H : (_ || _)%bool = true |- _ => apply orb_true_iff in H; destruct H
  | H : String.eqb _ _ = true |- _ => apply String.eqb_eq in H; subst
  | H : false = true |- _ => discriminate H
  end.

Ltac settle :=
  intros;
  repeat match goal with
  | H : Return _ = Return _ |- _ => injection H as H; subst
  | H : Raise _ = Raise _ |- _ => injection H as H; subst
  end;
  try discriminate;
  repeat split; intros; first [reflexivity | discriminate].

Ltac by_extension s :=
  repeat match goal with
  | |- context [String.eqb s ?l] =>
      destruct (String.eqb_spec s l); [subst s; vm_compute; settle |]
  end.

(** * Fixtures

    Concrete datasets, rule sets and environments on which the properties
    below are exercised. *)

Import DataModels.

(** No field populated. *)
Definition unset_projection : ProjectionInfo :=
  mk_ProjectionInfo None None None None.

Definition wgs84 : ProjectionInfo :=
  mk_ProjectionInfo (Some 4326) None None None.

(** A north-up transform with unit pixels. *)
Definition north_up : Affine := mk_Affine 1 0 0 0 (-1) 0.

(** A 2 x 2 single-band integer raster with nodata -1. *)
Definition small_raster : raster :=
  mk_raster (Some "EPSG:4326"%string) north_up 2 2 "int16" (Some (-1)) None
    [[10; 60; -1; 200]].

(** A file system holding that raster. *)
Definition small_fs : filesystem :=
  fun p => if String.eqb p "in.tif" then Some (RasterFile small_raster)
           else None.

(** An environment in which every file operation succeeds. *)
Definition ok_env : env := mk_env None WriteOk None.



(** The rules of the end-to-end scenario of the specification. *)
Definition scenario_rules : list RasterProcessor.rule :=
  [((0, 50)%Q, 1); ((51, 100)%Q, 2)].


(** A two-band source, a mask on the same grid and CRS whose nodata is 0,
    and a mask in another CRS. *)
Definition two_band_raster : raster :=
  mk_raster (Some "EPSG:4326"%string) north_up 2 2 "int16" (Some (-1)) None
    [[10; 60; -1; 200]; [1; 2; 3; 4]].

Definition mask_raster : raster :=
  mk_raster (Some "EPSG:4326"%string) north_up 2 2 "uint8" (Some 0) None
    [[1; 0; 1; 0]].

Definition mask_raster_3857 : raster :=
  mk_raster (Some "EPSG:3857"%string) north_up 2 2 "uint8" (Some 0) None
    [[1; 0; 1; 0]].

Definition clip_fs : filesystem :=
  fun p =>
    if String.eqb p "src.tif" then Some (RasterFile two_band_raster)
    else if String.eqb p "mask.tif" then Some (RasterFile mask_raster)
    else if String.eqb p "mask3857.tif" then Some (RasterFile mask_raster_3857)
    else None.

(** Stand-ins for the library calls: a destination grid of twice the
    resolution, destination pixels that depend on the kernel, and a
    resampled read that fills the requested shape. *)
Definition demo_calculate_default_transform
  (src_crs : option string) (dst_crs : string) (w h : Z)
  (b : Q * Q * Q * Q) : result (Affine * Z * Z) :=
  match src_crs with
  | None => Raise (mk_exc ValueError "Cannot transform without a source CRS")
  | Some _ => Return (mk_Affine (1 # 2) 0 0 0 (- (1 # 2)) 0, 2 * w, 2 * h)
  end.

Definition demo_warp_reproject (src : raster) (i : Z) (dst : raster)
  (t : Affine) (dst_crs : string) (k : Resampling.t) : result (list Z) :=
  Return (repeat (match k with Resampling.nearest => 1 | _ => 2 end)
            (Z.to_nat (width dst * height dst))).

Definition demo_read_resampled (src : raster) (h w : Z) (k : Resampling.t)
  : result (list (list Z)) :=
  Return (map (fun _ => repeat 0 (Z.to_nat (h * w))) (bands src)).

(** A 5 x 4 single-band raster with 10-unit pixels. *)
Definition wide_raster : raster :=
  mk_raster (Some "EPSG:32633"%string) (mk_Affine 10 0 500 0 (-10) 900)
    5 4 "int16" (Some (-1)) None
    [[1; 2; 3; 4; 5; 6; 7; 8; 9; 10; 11; 12; 13; 14; 15; 16; 17; 18; 19; 20]].

Definition wide_fs : filesystem :=
  fun p => if String.eqb p "wide.tif" then Some (RasterFile wide_raster)
           else None.

(** Two vector layers in different CRSs that share a feature, and a
    stand-in for the coordinate transformation. *)
Definition square : feature :=
  mk_feature [(0, 0); (10, 0); (10, 10); (0, 10)]%Q
    [("name", "square")]%string.

Definition triangle : feature :=
  mk_feature [(0, 0); (4, 0); (0, 3)]%Q [("id", "7")]%string.

Definition layer_A : GeoDataFrame :=
  mk_GeoDataFrame (Some "EPSG:4326"%string) [square; triangle].

Definition layer_B : GeoDataFrame :=
  mk_GeoDataFrame (Some "EPSG:3857"%string) [square].

Definition demo_pyproj_transform (from to : string) (p : Q * Q) : Q * Q :=
  (fst p * 2, snd p * 2)%Q.


(** An environment in which the write fails, leaving a partial file, and
    the deletion of that file fails too. *)
Definition stuck_env : env :=
  mk_env None (WriteFail true "write error") (Some "permission denied"%string).

(** A rule whose class is the reserved nodata value. *)
Definition reserved_class_rules : list RasterProcessor.rule :=
  [((0, 100)%Q, -9999)].

(** A mask on a 5 x 4 grid, a mask that declares no nodata value, and a
    file system holding them beside the two-band source. *)
Definition wide_mask : raster :=
  mk_raster (Some "EPSG:4326"%string) north_up 5 4 "uint8" (Some 0) None
    [[1; 0; 1; 0; 1; 0; 1; 0; 1; 0; 1; 0; 1; 0; 1; 0; 1; 0; 1; 0]].

Definition open_mask : raster :=
  mk_raster (Some "EPSG:4326"%string) north_up 2 2 "uint8" None None
    [[1; 0; 1; 0]].

Definition shape_fs : filesystem :=
  fun p =>
    if String.eqb p "src.tif" then Some (RasterFile two_band_raster)
    else if String.eqb p "wide.tif" then Some (RasterFile wide_mask)
    else if String.eqb p "open.tif" then Some (RasterFile open_mask)
    else None.

(** The mask of [mask_raster] with another transform, another type and a
    second band. *)
Definition shifted_mask : raster :=
  mk_raster (Some "EPSG:4326"%string) (mk_Affine 30 0 1000 0 (-30) 2000)
    2 2 "int32" (Some 0) None [[1; 0; 1; 0]; [0; 0; 0; 0]].

(** A file system in which an earlier result sits at the output path. *)
Definition rerun_fs : filesystem :=
  fun p =>
    if String.eqb p "in.tif" then Some (RasterFile small_raster)
    else if String.eqb p "out.tif" then Some (RasterFile two_band_raster)
    else None.

(** A layer without CRS, and a file system with three layers. *)
Definition layer_N : GeoDataFrame := mk_GeoDataFrame None [triangle].

Definition layers_fs : filesystem :=
  fun p => if String.eqb p "n.shp" then Some (VectorFile layer_N)
           else if String.eqb p "a.shp" then Some (VectorFile layer_A)
           else if String.eqb p "b.shp" then Some (VectorFile layer_B)
           else None.

(** Stand-ins for the geopandas and pyproj calls of the vector
    operations: overlays that keep the first operand, and a CRS parser
    that takes every string as it is. *)
Definition demo_overlay (how : string) (g other : GeoDataFrame)
  : result GeoDataFrame := Return g.

Definition demo_gdf_clip (g other : GeoDataFrame) : result GeoDataFrame :=
  Return g.

Definition demo_from_user_input (s : string) : result string := Return s.

(** A coordinate transformation that is its own inverse: the exchange
    of the two axes. *)
Definition swap_axes (from to : string) (p : Q * Q) : Q * Q :=
  (snd p, fst p).



(** An operating system that finds every path a readable regular file. *)
Definition plain_access : FileManager.access :=
  FileManager.mk_access (fun _ => true) (fun _ => false).

(** Stand-ins for the CRS and geometry accessors: two CRSs with an EPSG
    code, every other CRS without one. *)
Definition demo_to_epsg (c : string) : option Z :=
  if String.eqb c "EPSG:4326" then Some 4326
  else if String.eqb c "EPSG:3857" then Some 3857
  else None.

Definition demo_to_wkt (c : string) : string := "WKT[" +++ c +++ "]".

Definition demo_geom_type (ft : feature) : string := "Polygon".

Definition demo_total_bounds (fts : list feature) : Q * Q * Q * Q :=
  (0, 0, 10, 10)%Q.

Definition demo_isna (ft : feature) : bool :=
  match geometry ft with
  | [] => true
  | _ :: _ => false
  end.

(** A raster and a layer in a site CRS that has no EPSG code, a layer
    without rows, and a file system in which one vector layer sits behind
    a raster extension. *)
Definition site_raster : raster :=
  mk_raster (Some "LOCAL_CS[site]"%string) north_up 2 2 "uint8" (Some 0)
    None [[1; 2; 3; 4]].

Definition site_layer : GeoDataFrame :=
  mk_GeoDataFrame (Some "LOCAL_CS[site]"%string) [square].

Definition empty_layer : GeoDataFrame :=
  mk_GeoDataFrame (Some "EPSG:4326"%string) [].

Definition site_fs : filesystem :=
  fun p => if String.eqb p "site.tif" then Some (RasterFile site_raster)
           else if String.eqb p "site.shp" then Some (VectorFile site_layer)
           else if String.eqb p "a.shp" then Some (VectorFile layer_A)
           else if String.eqb p "b.shp" then Some (VectorFile layer_B)
           else if String.eqb p "in.tif" then Some (RasterFile small_raster)
           else if String.eqb p "empty.shp" then Some (VectorFile empty_layer)
           else if String.eqb p "layer.tif" then Some (VectorFile layer_A)
           else if String.eqb p "notes.txt" then Some PartialFile
           else None.

(** A rule table in which the first interval is entered again at the end
    and one row has an empty cell. *)
Definition edited_table : list RasterPanel.row :=
  [(Some 0%Q, Some 50%Q, Some 1); (Some 40%Q, Some 100%Q, Some 2);
   (Some 5%Q, None, Some 9); (Some 0%Q, Some 50%Q, Some 3)].

(** * Properties *)

Import RasterProcessor Reclass.

(** ** The exception hierarchy *)

Lemma exc_class_eqb_eq (c d : exc_class) :
  exc_class_eqb c d = true <-> c = d.
Proof.
  split.
  - destruct c, d; simpl; intro H; try reflexivity; discriminate H.
  - intros ->. destruct d; reflexivity.
Qed.

(** C10. Each of the five error kinds of the engine (GISProcessingError and
    its four specializations ProjectionError, DataFormatError,
    GeometryError, FileAccessError) is a subclass of GISProcessingError, and
    these are all its subclasses; so an [except GISProcessingError] clause
    catches an error of any of the five kinds, whatever its message, and an
    error of a specialized kind is at once an instance of its own class and
    of GISProcessingError: the kinds are not disjoint. *)
Theorem engine_errors_are_GISProcessingErrors :
  Forall (fun k => issubclass k GISProcessingError = true) engine_error_kinds
  /\ (forall c, issubclass c GISProcessingError = true <->
                In c engine_error_kinds)
  /\ Forall (fun k => forall (m : string) (A : Type),
               catches GISProcessingError (@Raise A (mk_exc k m)) = true)
       engine_error_kinds
  /\ Forall (fun k => forall m : string,
               isinstance (mk_exc k m) k = true /\
               isinstance (mk_exc k m) GISProcessingError = true /\
               isinstance (mk_exc k m) Exception = true)
       engine_error_kinds.
Proof.
  split; [| split; [| split]].
  - repeat constructor.
  - intro c; split.
    + destruct c; simpl; intro H; try discriminate H; tauto.
    + simpl. intros [<- | [<- | [<- | [<- | [<- | []]]]]]; reflexivity.
  - repeat constructor.
  - repeat constructor.
Qed.

(** ** The CRS model *)

(** C9, as the claim states it, fails: for a projection with nothing
    populated the specification's resolution is the string "unknown",
    while [to_crs] returns [None]. *)
Lemma to_crs_unset_is_None_not_unknown :
  spec_to_crs unset_projection = "unknown"%string
  /\ to_crs unset_projection = None
  /\ to_crs unset_projection <> Some (spec_to_crs unset_projection).
Proof.
  repeat split. discriminate.
Qed.

Lemma truthy_str_Some (s : string) :
  s <> EmptyString -> truthy_str (Some s) = true.
Proof.
  intro H. unfold truthy_str.
  destruct (String.eqb_spec s EmptyString) as [E | _];
    [contradiction | reflexivity].
Qed.

Lemma truthy_str_nonempty (o : option string) :
  truthy_str o = true -> exists s, o = Some s /\ s <> EmptyString.
Proof.
  destruct o as [s |]; simpl; [| discriminate].
  destruct (String.eqb_spec s EmptyString) as [E | N]; [discriminate |].
  intros _. exists s. split; [reflexivity | assumption].
Qed.

(** C9, amended. [to_crs] is a total function of the record (so it is
    deterministic and raises nothing): it returns "EPSG:<code>" when a
    non-zero code is populated, else the proj4 string when that is populated
    and not empty, else the WKT string when that is populated and not empty,
    and Python's [None] otherwise, in particular when nothing is populated.
    A string it returns is never empty, and resolving that string again as a
    raw string yields the same string. *)
Theorem to_crs_resolution (p : ProjectionInfo) :
  (forall n, epsg_code p = Some n -> n <> 0 ->
     to_crs p = Some ("EPSG:" +++ str_int n))
  /\ (forall s, truthy_int (epsg_code p) = false ->
        proj4_string p = Some s -> s <> EmptyString -> to_crs p = Some s)
  /\ (forall s, truthy_int (epsg_code p) = false ->
        truthy_str (proj4_string p) = false ->
        wkt_string p = Some s -> s <> EmptyString -> to_crs p = Some s)
  /\ (truthy_int (epsg_code p) = false ->
      truthy_str (proj4_string p) = false ->
      truthy_str (wkt_string p) = false -> to_crs p = None)
  /\ (epsg_code p = None -> proj4_string p = None -> wkt_string p = None ->
      to_crs p = None)
  /\ (forall s, to_crs p = Some s ->
        s <> EmptyString /\ to_crs (of_raw s) = Some s).
Proof.
  unfold to_crs.
  split; [| split; [| split; [| split; [| split]]]].
  - intros n E N. rewrite E. simpl.
    destruct (Z.eqb_spec n 0) as [Z0 | _]; [contradiction | reflexivity].
  - intros s T E N. rewrite T, E, (truthy_str_Some s N). reflexivity.
  - intros s T1 T2 E N. rewrite T1, T2, E, (truthy_str_Some s N). reflexivity.
  - intros T1 T2 T3. rewrite T1, T2, T3. reflexivity.
  - intros E1 E2 E3. rewrite E1, E2, E3. reflexivity.
  - intros s H.
    assert (N : s <> EmptyString).
    { destruct (truthy_int (epsg_code p)) eqn:T1.
      - destruct (epsg_code p); [| discriminate].
        injection H as <-. discriminate.
      - destruct (truthy_str (proj4_string p)) eqn:T2.
        + destruct (truthy_str_nonempty _ T2) as (s' & E & N).
          rewrite E in H. injection H as <-. exact N.
        + destruct (truthy_str (wkt_string p)) eqn:T3; [| discriminate].
          destruct (truthy_str_nonempty _ T3) as (s' & E & N).
          rewrite E in H. injection H as <-. exact N. }
    split; [exact N |].
    unfold of_raw. cbn [epsg_code proj4_string truthy_int].
    rewrite (truthy_str_Some s N). reflexivity.
Qed.

Lemma to_crs_resolution_witness :
  to_crs wgs84 = Some "EPSG:4326"%string
  /\ to_crs (of_raw "EPSG:4326") = Some "EPSG:4326"%string
  /\ to_crs unset_projection = None.
Proof.
  split; [| split].
  - apply (proj1 (to_crs_resolution wgs84) 4326); [reflexivity | lia].
  - apply (proj2 (proj2 (proj2 (proj2 (proj2 (to_crs_resolution wgs84))))))
      with (s := "EPSG:4326"%string).
    reflexivity.
  - apply (proj1 (proj2 (proj2 (proj2 (proj2
             (to_crs_resolution unset_projection)))))); reflexivity.
Defined.

(** ** Boolean-mask assignment, pixel by pixel *)























(** ** Exceptions a computation can raise *)

Section MonadFacts.

Context {A B : Type}.

Lemma raises_only_ret (P : exc -> Prop) (a : A) : raises_only P (ret a).
Proof. intros fs e fs' H. discriminate H. Qed.

Lemma raises_only_raise (P : exc -> Prop) c m :
  P (mk_exc c m) -> raises_only P (@raise A c m).
Proof. intros H fs e fs' E. injection E as <- _. exact H. Qed.

Lemma raises_only_lift (P : exc -> Prop) (r : result A) :
  (forall e, r = Raise e -> P e) -> raises_only P (lift r).
Proof. intros H fs e fs' E. injection E as E _. apply H, E. Qed.

Lemma raises_only_bind (P : exc -> Prop) (c : M A) (k : A -> M B) :
  raises_only P c -> (forall a, raises_only P (k a)) ->
  raises_only P (bind c k).
Proof.
  intros Hc Hk fs e fs' E. unfold bind in E.
  destruct (c fs) as [[a | e0] fs0] eqn:C.
  - exact (Hk a fs0 e fs' E).
  - injection E as <- <-. exact (Hc fs e0 fs0 C).
Qed.

Lemma raises_only_try_except (P : exc -> Prop) (c : M A) (h : exc -> M A) :
  raises_only is_Exception c -> (forall e, raises_only P (h e)) ->
  raises_only P (try_except c h).
Proof.
  intros Hc Hh fs e fs' E. unfold try_except in E.
  destruct (c fs) as [[a | e0] fs0] eqn:C; [discriminate E |].
  rewrite (Hc fs e0 fs0 C) in E. exact (Hh e0 fs0 e fs' E).
Qed.

End MonadFacts.

Lemma raises_only_get_fs P : raises_only P get_fs.
Proof. intros fs e fs' H. discriminate H. Qed.

Lemma raises_only_set_fs P f : raises_only P (set_fs f).
Proof. intros fs e fs' H. discriminate H. Qed.

Lemma raises_only_rasterio_open p :
  raises_only is_Exception (rasterio_open p).
Proof.
  apply raises_only_bind; [apply raises_only_get_fs |].
  intros fs. destruct (fs p) as [[r | g |] |];
    (apply raises_only_ret || (apply raises_only_raise; reflexivity)).
Qed.


Lemma raises_only_write_file w p x :
  raises_only is_Exception (write_file w p x).
Proof.
  apply raises_only_bind; [apply raises_only_get_fs |].
  intros fs. destruct w as [| partial m]; [apply raises_only_set_fs |].
  apply raises_only_bind; [| intros _; apply raises_only_raise; reflexivity].
  destruct partial; [apply raises_only_set_fs | apply raises_only_ret].
Qed.




Lemma fs_put_same p x fs : fs_put p x fs p = Some x.
Proof. unfold fs_put. rewrite String.eqb_refl. reflexivity. Qed.

Lemma fs_remove_same p fs : fs_remove p fs p = None.
Proof. unfold fs_remove. rewrite String.eqb_refl. reflexivity. Qed.

Lemma fs_exists_false p fs : fs_exists p fs = false -> fs p = None.
Proof. unfold fs_exists. destruct (fs p); [discriminate | reflexivity]. Qed.

(** What the cleanup handler does: it always raises GISProcessingError
    with the cause's message, and the output path is empty afterwards
    unless the deletion itself failed. *)
Lemma reclassify_except_run ev out e0 fs :
  exists fs',
    reclassify_except ev out e0 fs =
    (Raise (mk_exc GISProcessingError
              ("Raster reclassification failed: " +++ msg e0)), fs')
    /\ (unlink_error ev = None -> fs' out = None)
    /\ (fs out = None -> fs' = fs).
Proof.
  unfold reclassify_except, bind, get_fs, try_pass, unlink, raise, ret, set_fs.
  destruct (fs_exists out fs) eqn:X.
  - destruct (unlink_error ev) as [m |] eqn:U.
    + eexists. split; [reflexivity |]. split; [discriminate |].
      intro N. unfold fs_exists in X. rewrite N in X. discriminate X.
    + eexists. split; [reflexivity |]. split.
      * intros _. apply fs_remove_same.
      * intro N. unfold fs_exists in X. rewrite N in X. discriminate X.
  - eexists. split; [reflexivity |]. split.
    + intros _. apply fs_exists_false, X.
    + reflexivity.
Qed.


(** ** Running the monadic code *)

Section RunFacts.

Context {A B : Type}.

Lemma bind_Return_inv (c : M A) (k : A -> M B) fs b fs' :
  bind c k fs = (Return b, fs') ->
  exists a fs0, c fs = (Return a, fs0) /\ k a fs0 = (Return b, fs').
Proof.
  unfold bind. destruct (c fs) as [[a | e] fs0]; intro H.
  - exists a, fs0. split; [reflexivity | exact H].
  - discriminate H.
Qed.

Lemma bind_run (c : M A) (k : A -> M B) fs a fs0 :
  c fs = (Return a, fs0) -> bind c k fs = k a fs0.
Proof. unfold bind. intros ->. reflexivity. Qed.

Lemma try_except_Return_inv (c : M A) (h : exc -> M A) fs a fs' :
  try_except c h fs = (Return a, fs') ->
  c fs = (Return a, fs') \/
  exists e fs0, c fs = (Raise e, fs0) /\ h e fs0 = (Return a, fs').
Proof.
  unfold try_except. destruct (c fs) as [[a0 | e] fs0]; intro H.
  - left. exact H.
  - destruct (isinstance e Exception); [| discriminate H].
    right. exists e, fs0. split; [reflexivity | exact H].
Qed.

End RunFacts.

Lemma rasterio_open_Return_inv p fs r fs' :
  rasterio_open p fs = (Return r, fs') ->
  fs p = Some (RasterFile r) /\ fs' = fs.
Proof.
  unfold rasterio_open, bind, get_fs, ret, raise.
  destruct (fs p) as [[r0 | g |] |]; intro H; try discriminate H.
  injection H as -> ->. split; reflexivity.
Qed.

Lemma rasterio_open_run p fs r :
  fs p = Some (RasterFile r) -> rasterio_open p fs = (Return r, fs).
Proof.
  intro H. unfold rasterio_open, bind, get_fs, ret. rewrite H. reflexivity.
Qed.

Lemma write_file_Return_inv w p x fs u fs' :
  write_file w p x fs = (Return u, fs') ->
  w = WriteOk /\ fs' = fs_put p x fs.
Proof.
  unfold write_file, bind, get_fs, set_fs, ret, raise.
  destruct w as [| [] m]; intro H; try discriminate H.
  injection H as _ <-. split; reflexivity.
Qed.

Lemma write_file_run p x fs :
  write_file WriteOk p x fs = (Return tt, fs_put p x fs).
Proof. reflexivity. Qed.


(** ** The count of classified pixels *)








(** ** The reclassification as a whole *)







(** ** Rule order *)















(** ** Reclassification: the claims *)








(** The operation accepts a rule whose class is the reserved value: the
    pixels it classifies then read as nodata. *)
Remark reserved_class_reads_as_nodata :
  exists fs',
    reclassify_raster ok_env "in.tif" "out.tif" reserved_class_rules small_fs
    = (Return true, fs')
    /\ fs' "out.tif"%string =
       Some (RasterFile
               (reclassified_raster small_raster
                  [-9999; -9999; -9999; -9999])).
Proof. eexists. split; reflexivity. Qed.



(** The premise on the deletion is needed: the handler ignores an error of
    [unlink], and the partial file then stays. *)
Remark cleanup_depends_on_unlink :
  fst (reclassify_raster stuck_env "in.tif" "out.tif" scenario_rules
         small_fs) =
  Raise (mk_exc GISProcessingError
    "Raster reclassification failed: Failed to write reclassified output: write error")
  /\ snd (reclassify_raster stuck_env "in.tif" "out.tif" scenario_rules
            small_fs) "out.tif"%string = Some PartialFile.
Proof. split; reflexivity. Qed.

(** ** Clipping a raster with a raster mask *)

Lemma mask_bands_Return_inv src mask_src selected src_data out :
  mask_bands src mask_src selected src_data = Return out ->
  List.length out = List.length src_data
  /\ forall b band,
       nth_error src_data b = Some band ->
       exists nd,
         nodata src = Some nd
         /\ nth_error out b = Some (assign_where band selected nd).
Proof.
  revert out. induction src_data as [| band0 rest IH]; intros out H.
  - injection H as <-. split; [reflexivity |].
    intros b band E. destruct b; discriminate E.
  - cbn [mask_bands] in H. unfold and_then at 1 in H.
    destruct (mask_band src mask_src selected band0) as [band0' | e] eqn:B;
      [| discriminate H].
    unfold and_then at 1 in H.
    destruct (mask_bands src mask_src selected rest) as [rest' | e] eqn:R;
      [| discriminate H].
    injection H as <-. destruct (IH rest' eq_refl) as [L P].
    split; [cbn; f_equal; exact L |].
    intros [| b] band E; cbn in E.
    + injection E as <-. unfold mask_band in B.
      destruct (negb _); [discriminate B |].
      destruct (nodata src) as [nd |]; [| discriminate B].
      injection B as <-. exists nd. split; reflexivity.
    + apply (P b band E).
Qed.

Lemma mask_bands_run src mask_src selected src_data nd :
  height src = height mask_src -> width src = width mask_src ->
  nodata src = Some nd ->
  mask_bands src mask_src selected src_data =
  Return (map (fun band => assign_where band selected nd) src_data).
Proof.
  intros Hh Hw Hn. induction src_data as [| band rest IH]; [reflexivity |].
  cbn [mask_bands map]. unfold mask_band at 1.
  rewrite Hh, Hw, !Z.eqb_refl, Hn. cbn [negb andb and_then].
  rewrite IH. reflexivity.
Qed.

Lemma crs_ne_false c1 c2 : c1 = c2 -> RasterProcessor.crs_ne c1 c2 = false.
Proof.
  intros <-. destruct c1 as [s |]; [| reflexivity].
  cbn. rewrite String.eqb_refl. reflexivity.
Qed.

Lemma crs_ne_true c1 c2 : c1 <> c2 -> RasterProcessor.crs_ne c1 c2 = true.
Proof.
  intro N. destruct c1 as [s1 |], c2 as [s2 |]; try reflexivity.
  - cbn. destruct (String.eqb_spec s1 s2) as [-> | _];
      [contradiction N; reflexivity | reflexivity].
  - contradiction N; reflexivity.
Qed.




(** When the two CRSs differ the ProjectionError raised inside the [try]
    is caught by the operation's own [except Exception] clause: the error
    that leaves is a GISProcessingError quoting its message, and the file
    system is untouched. *)
Lemma clip_raster_with_raster_crs_mismatch ev source_path mask_path
  output_path fs src mask_src :
  fs source_path = Some (RasterFile src) ->
  fs mask_path = Some (RasterFile mask_src) ->
  crs src <> crs mask_src ->
  clip_raster_with_raster ev source_path mask_path output_path fs =
  (Raise (mk_exc GISProcessingError
     "Clipping raster user raster failed: Both Raster must have the same CRS for clipping"),
   fs).
Proof.
  intros Hsrc Hmask Hcrs.
  unfold clip_raster_with_raster, try_except.
  rewrite (bind_run _ _ _ _ _ (rasterio_open_run _ _ _ Hsrc)).
  rewrite (bind_run _ _ _ _ _ (rasterio_open_run _ _ _ Hmask)).
  rewrite (crs_ne_true _ _ Hcrs). reflexivity.
Qed.

(** C4, on the code. Clipping an EPSG:4326 source with an EPSG:3857 mask
    raises, but what is raised is a GISProcessingError and not a
    ProjectionError: an [except ProjectionError] clause does not catch it.
    Neither raster is reprojected and no output is written: the file
    system is as before. *)
Theorem clip_crs_mismatch_raises_GISProcessingError :
  clip_raster_with_raster ok_env "src.tif" "mask3857.tif" "out.tif" clip_fs =
  (Raise (mk_exc GISProcessingError
     "Clipping raster user raster failed: Both Raster must have the same CRS for clipping"),
   clip_fs)
  /\ catches ProjectionError
       (fst (clip_raster_with_raster ok_env "src.tif" "mask3857.tif"
               "out.tif" clip_fs)) = false
  /\ catches GISProcessingError
       (fst (clip_raster_with_raster ok_env "src.tif" "mask3857.tif"
               "out.tif" clip_fs)) = true
  /\ clip_fs "out.tif"%string = None.
Proof.
  assert (E := clip_raster_with_raster_crs_mismatch ok_env "src.tif"
                 "mask3857.tif" "out.tif" clip_fs two_band_raster
                 mask_raster_3857 eq_refl eq_refl).
  rewrite E by discriminate. repeat split.
Qed.

(** ** Reprojection and resampling *)


Lemma truediv_Return_inv p q x :
  truediv p q = Return x -> q <> 0 /\ x = (inject_Z p / inject_Z q)%Q.
Proof.
  unfold truediv. destruct (Z.eqb_spec q 0) as [-> | N]; intro H.
  - discriminate H.
  - injection H as <-. split; [exact N | reflexivity].
Qed.

Lemma inject_Z_nonzero (z : Z) : z <> 0 -> ~ (inject_Z z == 0)%Q.
Proof.
  intros N E. apply N. unfold Qeq, inject_Z in E. cbn in E. lia.
Qed.


Section WarpingFacts.

Variable calculate_default_transform :
  option string -> string -> Z -> Z -> Q * Q * Q * Q ->
  result (Affine * Z * Z).
Variable warp_reproject :
  raster -> Z -> raster -> Affine -> string -> Resampling.t ->
  result (list Z).
Variable read_resampled :
  raster -> Z -> Z -> Resampling.t -> result (list (list Z)).

Lemma reproject_raster_Return_inv ev inp out target k fs b fs' :
  reproject_raster calculate_default_transform warp_reproject
    ev inp out target k fs = (Return b, fs') ->
  exists src t w h data,
    fs inp = Some (RasterFile src)
    /\ calculate_default_transform (crs src) target (width src)
         (height src) (bounds src) = Return (t, w, h)
    /\ fs' out =
       Some (RasterFile
               (with_bands (reprojected_meta src target t w h) data)).
Proof.
  unfold reproject_raster. intro H.
  apply try_except_Return_inv in H as [H | (e & fs0 & _ & H)];
    [| discriminate H].
  apply bind_Return_inv in H as (src & fs1 & O & H).
  apply rasterio_open_Return_inv in O as [O ->].
  apply bind_Return_inv in H as ([[t w] h] & fs1 & C & H).
  injection C as C <-.
  apply bind_Return_inv in H as (u & fs1 & W & H).
  apply write_file_Return_inv in W as [W ->].
  apply bind_Return_inv in H as (data & fs1 & D & H).
  injection D as D <-.
  apply bind_Return_inv in H as (fs2 & fs1 & G & H).
  injection G as <- <-.
  apply bind_Return_inv in H as (u' & fs1 & S & H).
  injection S as _ <-. injection H as <- <-.
  exists src, t, w, h, data.
  split; [exact O |]. split; [exact C |]. apply fs_put_same.
Qed.

Lemma resampling_map_accepts k :
  In k kernel_names -> exists kernel, dict_get resampling_map k = Return kernel.
Proof.
  intros [<- | [<- | [<- | [<- | [<- | []]]]]]; eexists; reflexivity.
Qed.

(** C7. Two reprojections of the same input to the same target CRS that
    differ only in the kernel, each one of the five names of the
    enumeration (all of which the kernel table accepts), write outputs
    with the same CRS, transform, width, height and bounds, namely those
    that calculate_default_transform gives for the source: the two
    outputs differ at most in their pixel values. *)
Theorem reproject_kernel_independent ev inp out target k1 k2 fs
  b1 fs1 b2 fs2 :
  In k1 kernel_names ->
  In k2 kernel_names ->
  reproject_raster calculate_default_transform warp_reproject
    ev inp out target k1 fs = (Return b1, fs1) ->
  reproject_raster calculate_default_transform warp_reproject
    ev inp out target k2 fs = (Return b2, fs2) ->
  exists src t w h o1 o2,
    fs inp = Some (RasterFile src)
    /\ calculate_default_transform (crs src) target (width src)
         (height src) (bounds src) = Return (t, w, h)
    /\ fs1 out = Some (RasterFile o1)
    /\ fs2 out = Some (RasterFile o2)
    /\ (crs o1 = Some target /\ crs o2 = Some target)
    /\ (transform o1 = t /\ transform o2 = t)
    /\ (width o1 = w /\ width o2 = w)
    /\ (height o1 = h /\ height o2 = h)
    /\ bounds o1 = bounds o2
    /\ with_bands o1 [] = with_bands o2 []
    /\ (exists kernel1 kernel2,
          dict_get resampling_map k1 = Return kernel1
          /\ dict_get resampling_map k2 = Return kernel2).
Proof.
  intros Hk1 Hk2 H1 H2.
  apply reproject_raster_Return_inv in H1
    as (src & t & w & h & d1 & Hin & Hc & Ho1).
  apply reproject_raster_Return_inv in H2
    as (src' & t' & w' & h' & d2 & Hin' & Hc' & Ho2).
  rewrite Hin in Hin'. injection Hin' as <-.
  rewrite Hc in Hc'. injection Hc' as <- <- <-.
  destruct (resampling_map_accepts k1 Hk1) as (kernel1 & E1).
  destruct (resampling_map_accepts k2 Hk2) as (kernel2 & E2).
  exists src, t, w, h,
    (with_bands (reprojected_meta src target t w h) d1),
    (with_bands (reprojected_meta src target t w h) d2).
  repeat split; try assumption.
  exists kernel1, kernel2. split; assumption.
Qed.

Lemma resample_raster_Return_inv ev inp out scale k fs b fs' :
  resample_raster read_resampled ev inp out scale k fs = (Return b, fs') ->
  exists src data,
    let new_width := int_of_float (inject_Z (width src) * scale) in
    let new_height := int_of_float (inject_Z (height src) * scale) in
    fs inp = Some (RasterFile src)
    /\ new_width <> 0 /\ new_height <> 0
    /\ b = true
    /\ fs' out =
       Some (RasterFile
               (resampled_raster src new_width new_height
                  (affine_mul (transform src)
                     (affine_scale
                        (inject_Z (width src) / inject_Z new_width)
                        (inject_Z (height src) / inject_Z new_height)))
                  data)).
Proof.
  unfold resample_raster. intro H.
  apply try_except_Return_inv in H as [H | (e & fs0 & _ & H)];
    [| discriminate H].
  apply bind_Return_inv in H as (src & fs1 & O & H).
  apply rasterio_open_Return_inv in O as [O ->].
  apply bind_Return_inv in H as (sx & fs1 & X & H).
  injection X as X <-. apply truediv_Return_inv in X as [Nw ->].
  apply bind_Return_inv in H as (sy & fs1 & Y & H).
  injection Y as Y <-. apply truediv_Return_inv in Y as [Nh ->].
  apply bind_Return_inv in H as (kernel & fs1 & K & H).
  injection K as K <-.
  apply bind_Return_inv in H as (data & fs1 & D & H).
  injection D as D <-.
  apply bind_Return_inv in H as (u & fs1 & W & H).
  apply write_file_Return_inv in W as [W ->].
  injection H as <- <-.
  exists src, data. cbv zeta.
  split; [exact O |]. split; [exact Nw |]. split; [exact Nh |].
  split; [reflexivity |]. apply fs_put_same.
Qed.



End WarpingFacts.

Lemma reproject_kernel_independent_witness :
  exists o1 o2,
    snd (reproject_raster demo_calculate_default_transform
           demo_warp_reproject ok_env "in.tif" "out.tif" "EPSG:3857"
           "nearest" small_fs) "out.tif"%string = Some (RasterFile o1)
    /\ snd (reproject_raster demo_calculate_default_transform
              demo_warp_reproject ok_env "in.tif" "out.tif" "EPSG:3857"
              "cubic" small_fs) "out.tif"%string = Some (RasterFile o2)
    /\ transform o1 = transform o2
    /\ width o1 = width o2
    /\ height o1 = height o2
    /\ bounds o1 = bounds o2
    /\ bands o1 <> bands o2.
Proof.
  destruct (reproject_kernel_independent demo_calculate_default_transform
              demo_warp_reproject ok_env "in.tif" "out.tif" "EPSG:3857"
              "nearest" "cubic" small_fs
              true
              (snd (reproject_raster demo_calculate_default_transform
                      demo_warp_reproject ok_env "in.tif" "out.tif"
                      "EPSG:3857" "nearest" small_fs))
              true
              (snd (reproject_raster demo_calculate_default_transform
                      demo_warp_reproject ok_env "in.tif" "out.tif"
                      "EPSG:3857" "cubic" small_fs)))
    as (src & t & w & h & o1 & o2 & _ & _ & Ho1 & Ho2 & _ & [Ht1 Ht2]
        & [Hw1 Hw2] & [Hh1 Hh2] & Hb & _).
  - simpl. tauto.
  - simpl. tauto.
  - reflexivity.
  - reflexivity.
  - exists o1, o2.
    split; [exact Ho1 |]. split; [exact Ho2 |].
    split; [congruence |]. split; [congruence |]. split; [congruence |].
    split; [exact Hb |].
    vm_compute in Ho1. vm_compute in Ho2.
    injection Ho1 as <-. injection Ho2 as <-. discriminate.
Defined.


(** ** Vector union *)

Import VectorProcessor.

Lemma read_file_run p fs g :
  fs p = Some (VectorFile g) -> read_file p fs = (Return g, fs).
Proof.
  intro H. unfold read_file, bind, get_fs, ret. rewrite H. reflexivity.
Qed.

Section UnionFacts.

Variable pyproj_transform : string -> string -> Q * Q -> Q * Q.




End UnionFacts.


(** * Further properties of the processors *)

(** ** What an operation may touch *)

Section FrameFacts.

Context {A B : Type}.

Lemma changes_only_ret p (a : A) : changes_only p (ret a).
Proof. intros fs r fs' H q _. injection H as _ <-. reflexivity. Qed.

Lemma changes_only_raise p c m : changes_only p (@raise A c m).
Proof. intros fs r fs' H q _. injection H as _ <-. reflexivity. Qed.

Lemma changes_only_lift p (x : result A) : changes_only p (lift x).
Proof. intros fs r fs' H q _. injection H as _ <-. reflexivity. Qed.

Lemma changes_only_bind p (c : M A) (k : A -> M B) :
  changes_only p c -> (forall a, changes_only p (k a)) ->
  changes_only p (bind c k).
Proof.
  intros Hc Hk fs r fs' H q N. unfold bind in H.
  destruct (c fs) as [[a | e] fs0] eqn:C.
  - rewrite (Hk a fs0 r fs' H q N). exact (Hc fs _ fs0 C q N).
  - injection H as _ <-. exact (Hc fs _ fs0 C q N).
Qed.

Lemma changes_only_try_except p (c : M A) (h : exc -> M A) :
  changes_only p c -> (forall e, changes_only p (h e)) ->
  changes_only p (try_except c h).
Proof.
  intros Hc Hh fs r fs' H q N. unfold try_except in H.
  destruct (c fs) as [[a | e] fs0] eqn:C.
  - injection H as _ <-. exact (Hc fs _ fs0 C q N).
  - destruct (isinstance e Exception).
    + rewrite (Hh e fs0 r fs' H q N). exact (Hc fs _ fs0 C q N).
    + injection H as _ <-. exact (Hc fs _ fs0 C q N).
Qed.

End FrameFacts.

Lemma fs_put_other p x fs q : q <> p -> fs_put p x fs q = fs q.
Proof.
  intro N. unfold fs_put.
  destruct (String.eqb_spec q p) as [E | _]; [contradiction | reflexivity].
Qed.

Lemma fs_remove_other p fs q : q <> p -> fs_remove p fs q = fs q.
Proof.
  intro N. unfold fs_remove.
  destruct (String.eqb_spec q p) as [E | _]; [contradiction | reflexivity].
Qed.

Lemma changes_only_get_fs p {B} (k : filesystem -> M B) :
  (forall fs, forall r fs', k fs fs = (r, fs') ->
              forall q, q <> p -> fs' q = fs q) ->
  changes_only p (bind get_fs k).
Proof. intros H fs r fs' E. exact (H fs r fs' E). Qed.

Lemma changes_only_try_pass p (c : M unit) :
  changes_only p c -> changes_only p (try_pass c).
Proof.
  intros Hc fs r fs' H q N. unfold try_pass in H.
  destruct (c fs) as [[a | e] fs0] eqn:C;
    injection H as _ <-; exact (Hc fs _ fs0 C q N).
Qed.

Lemma changes_only_rasterio_open p p' : changes_only p (rasterio_open p').
Proof.
  intros fs r fs' H q _. unfold rasterio_open, bind, get_fs, ret, raise in H.
  destruct (fs p') as [[x | g |] |]; injection H as _ <-; reflexivity.
Qed.


Lemma changes_only_write_file w p x : changes_only p (write_file w p x).
Proof.
  intros fs r fs' H q N.
  unfold write_file, bind, get_fs, set_fs, ret, raise in H.
  destruct w as [| [] m]; injection H as _ <-;
    try reflexivity; apply fs_put_other, N.
Qed.

Lemma changes_only_unlink ev p : changes_only p (unlink ev p).
Proof.
  intros fs r fs' H q N. unfold unlink, bind, get_fs, set_fs, raise in H.
  destruct (unlink_error ev); injection H as _ <-;
    [reflexivity | apply fs_remove_other, N].
Qed.

Lemma changes_only_mkdir_parent ev p : changes_only p (mkdir_parent ev).
Proof.
  unfold mkdir_parent. destruct (mkdir_error ev);
    [apply changes_only_raise | apply changes_only_ret].
Qed.

Lemma changes_only_reclassify_raster ev inp out rules :
  changes_only out (reclassify_raster ev inp out rules).
Proof.
  apply changes_only_try_except.
  - apply changes_only_get_fs. intros fs.
    destruct (negb (fs_exists inp fs)); [apply changes_only_raise |].
    destruct rules as [| r rules]; [apply changes_only_raise |].
    apply changes_only_bind; [apply changes_only_rasterio_open |].
    intro src. apply changes_only_bind.
    { apply changes_only_try_except; [apply changes_only_lift |].
      intro e. apply changes_only_raise. }
    intro data.
    destruct (classify (nodata src) data (r :: rules)) as [rec n].
    destruct (n =? 0); [apply changes_only_raise |].
    apply changes_only_bind; [apply changes_only_mkdir_parent |].
    intros _. apply changes_only_try_except.
    + apply changes_only_bind; [apply changes_only_write_file |].
      intros _. apply changes_only_get_fs. intros fs1.
      destruct (created_properly out fs1);
        [apply changes_only_ret | apply changes_only_raise].
    + intro e. apply changes_only_raise.
  - intro e. apply changes_only_get_fs. intros fs.
    apply changes_only_bind; [| intros _; apply changes_only_raise].
    destruct (fs_exists out fs);
      [apply changes_only_try_pass, changes_only_unlink
      | apply changes_only_ret].
Qed.


Section WarpingFrame.

Variable calculate_default_transform :
  option string -> string -> Z -> Z -> Q * Q * Q * Q ->
  result (Affine * Z * Z).
Variable warp_reproject :
  raster -> Z -> raster -> Affine -> string -> Resampling.t ->
  result (list Z).
Variable read_resampled :
  raster -> Z -> Z -> Resampling.t -> result (list (list Z)).




End WarpingFrame.

(** ** The error an operation lets out *)

Lemma try_except_wraps {A} (c : M A) (prefix : string) :
  raises_only is_Exception c ->
  raises_only (wraps prefix)
    (try_except c (fun e => raise GISProcessingError (prefix +++ msg e))).
Proof.
  intro Hc. apply raises_only_try_except; [exact Hc |].
  intro e0. apply raises_only_raise. split; [reflexivity |].
  exists (msg e0). reflexivity.
Qed.

Lemma raises_Exception_and_then {A B} (r : result A) (k : A -> result B) :
  raises_Exception r -> (forall a, raises_Exception (k a)) ->
  raises_Exception (and_then r k).
Proof.
  intros Hr Hk e E. destruct r as [a | e0]; cbn in E.
  - exact (Hk a e E).
  - injection E as <-. apply (Hr e0 eq_refl).
Qed.

Lemma raises_Exception_Return {A} (a : A) : raises_Exception (Return a).
Proof. intros e E. discriminate E. Qed.

Lemma raises_Exception_read_band1 r : raises_Exception (read_band1 r).
Proof.
  intros e E. unfold read_band1 in E.
  destruct (bands r); [injection E as <-; reflexivity | discriminate E].
Qed.

Lemma raises_Exception_mask_bands src mask_src sel bs :
  raises_Exception (mask_bands src mask_src sel bs).
Proof.
  induction bs as [| b bs IH]; [apply raises_Exception_Return |].
  cbn [mask_bands]. apply raises_Exception_and_then.
  - intros e E. unfold mask_band in E.
    destruct (negb _); [injection E as <-; reflexivity |].
    destruct (nodata src); [discriminate E | injection E as <-; reflexivity].
  - intro b'. apply raises_Exception_and_then; [exact IH |].
    intro bs'. apply raises_Exception_Return.
Qed.

Lemma raises_Exception_dict_get {V} (d : list (string * V)) k :
  raises_Exception (dict_get d k).
Proof.
  induction d as [| [k' v] d IH]; cbn [dict_get].
  - intros e E. injection E as <-. reflexivity.
  - destruct (String.eqb k' k); [apply raises_Exception_Return | exact IH].
Qed.

Lemma raises_Exception_truediv p q : raises_Exception (truediv p q).
Proof.
  intros e E. unfold truediv in E.
  destruct (q =? 0); [injection E as <-; reflexivity | discriminate E].
Qed.

Lemma raises_Exception_getattr k : raises_Exception (Resampling.getattr k).
Proof.
  intros e E. unfold Resampling.getattr in E.
  repeat match type of E with
         | (if ?b then _ else _) = _ => destruct b; [discriminate E |]
         end.
  injection E as <-. reflexivity.
Qed.

Lemma raises_only_clip_body ev sp mp out :
  raises_only (wraps "Clipping raster user raster failed: ")
    (clip_raster_with_raster ev sp mp out).
Proof.
  apply try_except_wraps.
  apply raises_only_bind; [apply raises_only_rasterio_open |]. intro src.
  apply raises_only_bind; [apply raises_only_rasterio_open |].
  intro mask_src.
  destruct (RasterProcessor.crs_ne (crs src) (crs mask_src));
    [apply raises_only_raise; reflexivity |].
  apply raises_only_bind;
    [apply raises_only_lift, raises_Exception_read_band1 |]. intro md.
  apply raises_only_bind;
    [apply raises_only_lift, raises_Exception_mask_bands |]. intro sd.
  apply raises_only_bind; [apply raises_only_write_file |].
  intros _. apply raises_only_ret.
Qed.

Section WarpingErrors.

Variable calculate_default_transform :
  option string -> string -> Z -> Z -> Q * Q * Q * Q ->
  result (Affine * Z * Z).
Variable warp_reproject :
  raster -> Z -> raster -> Affine -> string -> Resampling.t ->
  result (list Z).
Variable read_resampled :
  raster -> Z -> Z -> Resampling.t -> result (list (list Z)).

Hypothesis calculate_default_transform_raises :
  forall c t w h b,
    raises_Exception (calculate_default_transform c t w h b).
Hypothesis warp_reproject_raises :
  forall s i d t c k, raises_Exception (warp_reproject s i d t c k).
Hypothesis read_resampled_raises :
  forall s h w k, raises_Exception (read_resampled s h w k).

Lemma raises_Exception_reproject_bands src kw t target k idx :
  raises_Exception
    (reproject_bands warp_reproject src kw t target k idx).
Proof.
  induction idx as [| i idx IH]; [apply raises_Exception_Return |].
  cbn [reproject_bands]. apply raises_Exception_and_then;
    [apply raises_Exception_dict_get |]. intro kernel.
  apply raises_Exception_and_then; [apply warp_reproject_raises |].
  intro band. apply raises_Exception_and_then; [exact IH |].
  intro bs. apply raises_Exception_Return.
Qed.

(** X2. Provided the rasterio calls raise ordinary exceptions only, an
    error that leaves clip_raster_with_raster, reproject_raster or
    resample_raster is always a GISProcessingError itself, never one of
    its specializations nor a builtin error, and its message is the
    operation's own prefix followed by the message of the cause. *)
Theorem raster_operations_raise_GISProcessingError ev inp mask_path out
  target k scale fs e fs' :
  (clip_raster_with_raster ev inp mask_path out fs = (Raise e, fs') ->
   wraps "Clipping raster user raster failed: " e)
  /\ (reproject_raster calculate_default_transform warp_reproject
        ev inp out target k fs = (Raise e, fs') ->
      wraps "Raster reprojection failed: " e)
  /\ (resample_raster read_resampled ev inp out scale k fs = (Raise e, fs') ->
      wraps "Raster resampling failed: " e).
Proof.
  split; [| split].
  - apply raises_only_clip_body.
  - apply try_except_wraps.
    apply raises_only_bind; [apply raises_only_rasterio_open |]. intro src.
    apply raises_only_bind;
      [apply raises_only_lift, calculate_default_transform_raises |].
    intros [[t w] h].
    apply raises_only_bind; [apply raises_only_write_file |]. intros _.
    apply raises_only_bind;
      [apply raises_only_lift, raises_Exception_reproject_bands |].
    intro data.
    apply raises_only_bind; [apply raises_only_get_fs |]. intro fs0.
    apply raises_only_bind; [apply raises_only_set_fs |]. intros _.
    apply raises_only_ret.
  - apply try_except_wraps.
    apply raises_only_bind; [apply raises_only_rasterio_open |]. intro src.
    apply raises_only_bind;
      [apply raises_only_lift, raises_Exception_truediv |]. intro sx.
    apply raises_only_bind;
      [apply raises_only_lift, raises_Exception_truediv |]. intro sy.
    apply raises_only_bind;
      [apply raises_only_lift, raises_Exception_getattr |]. intro kernel.
    apply raises_only_bind;
      [apply raises_only_lift, read_resampled_raises |]. intro data.
    apply raises_only_bind; [apply raises_only_write_file |].
    intros _. apply raises_only_ret.
Qed.

End WarpingErrors.

Lemma demo_calculate_default_transform_raises c t w h b :
  raises_Exception (demo_calculate_default_transform c t w h b).
Proof.
  intros e E. unfold demo_calculate_default_transform in E.
  destruct c; [discriminate E | injection E as <-; reflexivity].
Qed.

Lemma raster_operations_raise_GISProcessingError_witness :
  wraps "Raster resampling failed: "
    (mk_exc GISProcessingError "Raster resampling failed: division by zero").
Proof.
  apply (proj2 (proj2 (raster_operations_raise_GISProcessingError
                  demo_calculate_default_transform demo_warp_reproject
                  demo_read_resampled
                  demo_calculate_default_transform_raises
                  (fun s i d t c k e E => ltac:(discriminate E))
                  (fun s h w k e E => ltac:(discriminate E))
                  ok_env "wide.tif" "mask.tif" "out.tif" "EPSG:3857"
                  "nearest" (1 # 10) wide_fs
                  (mk_exc GISProcessingError
                     "Raster resampling failed: division by zero")
                  wide_fs))).
  reflexivity.
Defined.

(** ** More on clipping with a raster mask *)


(** The bands a clip writes, as a function of the source bands. *)
Lemma mask_bands_Return_map src mask_src sel bs out :
  mask_bands src mask_src sel bs = Return out ->
  out = map (fun b => match nodata src with
                      | Some nd => assign_where b sel nd
                      | None => b
                      end) bs.
Proof.
  intro H. apply nth_error_ext. intro k.
  destruct (mask_bands_Return_inv _ _ _ _ _ H) as [L P].
  rewrite nth_error_map.
  destruct (nth_error bs k) as [b |] eqn:E.
  - destruct (P k b E) as (nd & Hn & Ho). rewrite Ho, Hn. reflexivity.
  - apply nth_error_None. rewrite L. apply nth_error_None, E.
Qed.


Lemma assign_where_idempotent a m v :
  assign_where (assign_where a m v) m v = assign_where a m v.
Proof.
  revert m. induction a as [| x a IH]; intros [| b m]; try reflexivity.
  cbn [assign_where]. f_equal; [destruct b; reflexivity | apply IH].
Qed.

(** X3. A mask whose width or height differs from the source's is not
    applied out of alignment: for a source with at least one band the clip
    fails with its GISProcessingError and writes nothing. *)
Theorem clip_rejects_mask_of_other_shape ev sp mp out fs src mask_src :
  fs sp = Some (RasterFile src) ->
  fs mp = Some (RasterFile mask_src) ->
  bands src <> [] ->
  width src <> width mask_src \/ height src <> height mask_src ->
  exists e,
    clip_raster_with_raster ev sp mp out fs = (Raise e, fs)
    /\ wraps "Clipping raster user raster failed: " e.
Proof.
  intros Hs Hm Hb Hshape.
  assert (S : negb ((height src =? height mask_src) &&
                    (width src =? width mask_src)) = true).
  { apply negb_true_iff, andb_false_iff.
    destruct Hshape as [N | N]; [right | left]; apply Z.eqb_neq, N. }
  unfold clip_raster_with_raster, try_except.
  rewrite (bind_run _ _ _ _ _ (rasterio_open_run _ _ _ Hs)).
  rewrite (bind_run _ _ _ _ _ (rasterio_open_run _ _ _ Hm)).
  destruct (RasterProcessor.crs_ne (crs src) (crs mask_src)).
  - eexists. split; [reflexivity |]. split; [reflexivity |].
    eexists. reflexivity.
  - unfold bind at 1, lift at 1.
    destruct (read_band1 mask_src) as [md | e0] eqn:Rb.
    + destruct (bands src) as [| b0 bs]; [contradiction Hb; reflexivity |].
      unfold bind at 1, lift at 1. cbn [mask_bands].
      unfold mask_band at 1. rewrite S. cbn [and_then].
      eexists. split; [reflexivity |]. split; [reflexivity |].
      eexists. reflexivity.
    + rewrite (raises_Exception_read_band1 _ _ Rb).
      eexists. split; [reflexivity |]. split; [reflexivity |].
      eexists. reflexivity.
Qed.

Lemma clip_rejects_mask_of_other_shape_witness :
  exists e,
    clip_raster_with_raster ok_env "src.tif" "wide.tif" "out.tif"
      shape_fs = (Raise e, shape_fs)
    /\ wraps "Clipping raster user raster failed: " e.
Proof.
  apply (clip_rejects_mask_of_other_shape ok_env "src.tif" "wide.tif"
           "out.tif" shape_fs two_band_raster wide_mask).
  - reflexivity.
  - reflexivity.
  - discriminate.
  - left. discriminate.
Defined.



Lemma raises_Exception_clip_data src mask_src :
  raises_Exception (clip_data src mask_src).
Proof.
  unfold clip_data.
  destruct (RasterProcessor.crs_ne _ _).
  - intros e E. injection E as <-. reflexivity.
  - apply raises_Exception_and_then; [apply raises_Exception_read_band1 |].
    intro md. apply raises_Exception_mask_bands.
Qed.

(** The outcome of a clip whose two inputs open, in one formula. *)
Lemma clip_raster_with_raster_outcome ev sp mp out fs src mask_src :
  fs sp = Some (RasterFile src) ->
  fs mp = Some (RasterFile mask_src) ->
  clip_raster_with_raster ev sp mp out fs =
  match clip_data src mask_src with
  | Raise e0 =>
      (Raise (mk_exc GISProcessingError
                ("Clipping raster user raster failed: " +++ msg e0)), fs)
  | Return src_data =>
      match write ev with
      | WriteOk =>
          (Return true,
           fs_put out (RasterFile (with_bands src src_data)) fs)
      | WriteFail partial m =>
          (Raise (mk_exc GISProcessingError
                    ("Clipping raster user raster failed: " +++ m)),
           if partial then fs_put out PartialFile fs else fs)
      end
  end.
Proof.
  intros Hs Hm.
  pose proof (raises_Exception_clip_data src mask_src) as Hx.
  unfold clip_raster_with_raster, try_except.
  rewrite (bind_run _ _ _ _ _ (rasterio_open_run _ _ _ Hs)).
  rewrite (bind_run _ _ _ _ _ (rasterio_open_run _ _ _ Hm)).
  unfold clip_data in *.
  destruct (RasterProcessor.crs_ne (crs src) (crs mask_src));
    [reflexivity |].
  unfold bind at 1, lift at 1.
  destruct (read_band1 mask_src) as [md | e0].
  - cbn [and_then] in *. unfold bind at 1, lift at 1.
    destruct (mask_bands src mask_src _ (bands src)) as [sd | e1].
    + unfold bind, write_file, get_fs, set_fs, ret, raise.
      destruct (write ev) as [| [] m]; reflexivity.
    + rewrite (Hx e1 eq_refl). reflexivity.
  - cbn [and_then] in *. rewrite (Hx e0 eq_refl). reflexivity.
Qed.

(** X5. The mask is applied by pixel index alone: replacing the mask file
    by one with the same CRS, width, height, nodata value and first band,
    but any transform, type and further bands, changes neither the outcome
    of the clip nor the output it writes. *)
Theorem clip_ignores_mask_georeferencing ev sp mp out fs src m1 m2 :
  fs sp = Some (RasterFile src) ->
  fs mp = Some (RasterFile m1) ->
  sp <> mp -> out <> mp ->
  crs m1 = crs m2 ->
  width m1 = width m2 -> height m1 = height m2 ->
  nodata m1 = nodata m2 ->
  read_band1 m1 = read_band1 m2 ->
  fst (clip_raster_with_raster ev sp mp out
         (fs_put mp (RasterFile m2) fs)) =
  fst (clip_raster_with_raster ev sp mp out fs)
  /\ snd (clip_raster_with_raster ev sp mp out
            (fs_put mp (RasterFile m2) fs)) out =
     snd (clip_raster_with_raster ev sp mp out fs) out.
Proof.
  intros Hs Hm Nsp Nout Hc Hw Hh Hn Hb.
  assert (Hs2 : fs_put mp (RasterFile m2) fs sp = Some (RasterFile src))
    by (rewrite fs_put_other; assumption).
  assert (Hm2 : fs_put mp (RasterFile m2) fs mp = Some (RasterFile m2))
    by apply fs_put_same.
  assert (Ho : fs_put mp (RasterFile m2) fs out = fs out)
    by (apply fs_put_other; assumption).
  rewrite (clip_raster_with_raster_outcome ev sp mp out _ src m2 Hs2 Hm2).
  rewrite (clip_raster_with_raster_outcome ev sp mp out _ src m1 Hs Hm).
  assert (E : clip_data src m2 = clip_data src m1).
  { unfold clip_data. rewrite <- Hc, <- Hn, <- Hb.
    destruct (RasterProcessor.crs_ne (crs src) (crs m1)); [reflexivity |].
    destruct (read_band1 m1) as [md | e0]; [| reflexivity].
    cbn [and_then].
    generalize (mask_not (map (ne_scalar (nodata m1)) md)). intro sel.
    induction (bands src) as [| b0 bs IH]; [reflexivity |].
    cbn [mask_bands]. rewrite IH. unfold mask_band.
    rewrite <- Hw, <- Hh. reflexivity. }
  rewrite E.
  destruct (clip_data src m1) as [sd | e0];
    [| split; [reflexivity | exact Ho]].
  destruct (write ev) as [| [] m]; cbn [fst snd];
    (split; [reflexivity |]);
    rewrite ?fs_put_same; try reflexivity; exact Ho.
Qed.

Lemma clip_ignores_mask_georeferencing_witness :
  snd (clip_raster_with_raster ok_env "src.tif" "mask.tif" "out.tif"
         (fs_put "mask.tif" (RasterFile shifted_mask) clip_fs))
    "out.tif"%string =
  snd (clip_raster_with_raster ok_env "src.tif" "mask.tif" "out.tif" clip_fs)
    "out.tif"%string.
Proof.
  apply (proj2 (clip_ignores_mask_georeferencing ok_env "src.tif" "mask.tif"
                  "out.tif" clip_fs two_band_raster mask_raster shifted_mask
                  eq_refl eq_refl ltac:(discriminate) ltac:(discriminate)
                  eq_refl eq_refl eq_refl eq_refl eq_refl)).
Defined.

Lemma crs_ne_false_inv c1 c2 :
  RasterProcessor.crs_ne c1 c2 = false -> c1 = c2.
Proof.
  destruct c1 as [s1 |], c2 as [s2 |]; cbn; intro H;
    try reflexivity; try discriminate H.
  apply negb_false_iff, String.eqb_eq in H. subst. reflexivity.
Qed.

(** X6. Clipping is idempotent: clipping the output of a successful clip
    again with the same mask succeeds and writes the same dataset. *)
Theorem clip_twice_is_clip_once ev sp mp out out2 fs fs1 :
  out <> mp ->
  clip_raster_with_raster ev sp mp out fs = (Return true, fs1) ->
  exists fs2,
    clip_raster_with_raster ev out mp out2 fs1 = (Return true, fs2)
    /\ fs2 out2 = fs1 out.
Proof.
  intros Nout R. unfold clip_raster_with_raster in R.
  apply try_except_Return_inv in R as [R | (e & fs0 & _ & R)];
    [| discriminate R].
  apply bind_Return_inv in R as (src & fsa & O1 & R).
  apply rasterio_open_Return_inv in O1 as [Hs ->].
  apply bind_Return_inv in R as (mask_src & fsb & O2 & R).
  apply rasterio_open_Return_inv in O2 as [Hm ->].
  destruct (RasterProcessor.crs_ne (crs src) (crs mask_src)) eqn:Hc;
    [discriminate R |].
  apply crs_ne_false_inv in Hc.
  apply bind_Return_inv in R as (md & fsc & Rb & R).
  injection Rb as Rb <-.
  apply bind_Return_inv in R as (sd & fsd & Mb & R).
  injection Mb as Mb <-.
  apply bind_Return_inv in R as (u & fse & W & R).
  apply write_file_Return_inv in W as [W ->].
  injection R as <-.
  set (sel := mask_not (map (ne_scalar (nodata mask_src)) md)) in *.
  set (src' := with_bands src sd).
  assert (Hs' : fs_put out (RasterFile src') fs out = Some (RasterFile src'))
    by apply fs_put_same.
  assert (Hm' : fs_put out (RasterFile src') fs mp =
                Some (RasterFile mask_src)).
  { rewrite fs_put_other; [exact Hm | intro E; apply Nout; symmetry; exact E]. }
  assert (Mb' : mask_bands src' mask_src sel sd = Return sd).
  { pose proof (mask_bands_Return_map _ _ _ _ _ Mb) as E.
    destruct (bands src) as [| b0 bs] eqn:Eb.
    - subst sd. reflexivity.
    - cbn [mask_bands] in Mb. unfold mask_band at 1 in Mb.
      destruct ((height src =? height mask_src) &&
                (width src =? width mask_src)) eqn:S;
        [| discriminate Mb].
      apply andb_true_iff in S as [Sh Sw]. apply Z.eqb_eq in Sh, Sw.
      destruct (nodata src) as [nd |] eqn:Hn; [| discriminate Mb].
      rewrite (mask_bands_run src' mask_src sel sd nd Sh Sw Hn).
      f_equal. rewrite E at 2. rewrite E, map_map.
      apply map_ext. intro b. apply assign_where_idempotent. }
  assert (D : clip_data src' mask_src = Return sd).
  { unfold clip_data. change (crs src') with (crs src).
    rewrite (crs_ne_false _ _ Hc), Rb. exact Mb'. }
  eexists.
  rewrite (clip_raster_with_raster_outcome ev out mp out2 _ src' mask_src
             Hs' Hm'), D, W.
  split; [reflexivity |].
  rewrite fs_put_same, Hs'. reflexivity.
Qed.

Lemma clip_twice_is_clip_once_witness :
  exists fs2,
    clip_raster_with_raster ok_env "out.tif" "mask.tif" "again.tif"
      (snd (clip_raster_with_raster ok_env "src.tif" "mask.tif" "out.tif"
              clip_fs)) = (Return true, fs2)
    /\ fs2 "again.tif"%string =
       snd (clip_raster_with_raster ok_env "src.tif" "mask.tif" "out.tif"
              clip_fs) "out.tif"%string.
Proof.
  apply (clip_twice_is_clip_once ok_env "src.tif" "mask.tif" "out.tif"
           "again.tif" clip_fs).
  - discriminate.
  - reflexivity.
Defined.

(** ** More on resampling and on kernel names *)


Lemma int_of_float_inject_mul_1 (w : Z) :
  int_of_float (inject_Z w * 1) = w.
Proof.
  unfold int_of_float, inject_Z, Qmult. cbn [Qnum Qden].
  rewrite Z.mul_1_r. apply Z.quot_1_r.
Qed.




Section ResampleFacts.

Variable read_resampled :
  raster -> Z -> Z -> Resampling.t -> result (list (list Z)).


(** X8. Resampling by the scale factor 1 that returns keeps the grid: the
    output has the width, height, CRS, type and nodata value of the source
    and a transform with the same coefficients. *)
Theorem resample_by_one_keeps_grid ev inp out k fs src b fs' :
  fs inp = Some (RasterFile src) ->
  resample_raster read_resampled ev inp out 1 k fs = (Return b, fs') ->
  exists o,
    fs' out = Some (RasterFile o)
    /\ width o = width src /\ height o = height src
    /\ affine_eq (transform o) (transform src)
    /\ crs o = crs src /\ dtype o = dtype src /\ nodata o = nodata src.
Proof.
  intros Hin Hrun.
  apply resample_raster_Return_inv in Hrun
    as (src' & data & Hin' & Nw & Nh & _ & Hout).
  rewrite Hin in Hin'. injection Hin' as <-.
  rewrite !int_of_float_inject_mul_1 in *.
  eexists. split; [exact Hout |].
  cbn [width height transform crs dtype nodata resampled_raster].
  repeat split; try reflexivity;
    cbn [af_a af_b af_c af_d af_e af_f affine_mul affine_scale];
    field; apply inject_Z_nonzero; assumption.
Qed.


End ResampleFacts.


Lemma resample_by_one_keeps_grid_witness :
  exists o,
    snd (resample_raster demo_read_resampled ok_env "wide.tif" "out.tif" 1
           "nearest" wide_fs) "out.tif"%string = Some (RasterFile o)
    /\ width o = 5 /\ height o = 4
    /\ affine_eq (transform o) (transform wide_raster).
Proof.
  destruct (resample_by_one_keeps_grid demo_read_resampled ok_env "wide.tif"
              "out.tif" "nearest" wide_fs wide_raster true
              (snd (resample_raster demo_read_resampled ok_env "wide.tif"
                      "out.tif" 1 "nearest" wide_fs)) eq_refl eq_refl)
    as (o & Ho & Hw & Hh & Ht & _).
  exists o. repeat split; try assumption; apply Ht.
Defined.


(** X10. Every kernel name that reproject_raster's table accepts is one
    of the five enumerated names and is accepted by resample_raster's
    lookup, which resolves it to the same kernel; the converse fails, since
    resample_raster also accepts "lanczos". *)
Theorem reproject_kernels_are_resample_kernels (k : string)
  (kernel : Resampling.t) :
  dict_get resampling_map k = Return kernel ->
  In k kernel_names
  /\ Resampling.getattr k = Return kernel
  /\ Resampling.getattr "lanczos" = Return Resampling.lanczos
  /\ dict_get resampling_map "lanczos" <> Return Resampling.lanczos.
Proof.
  intro H. unfold resampling_map in H. cbn [dict_get] in H.
  repeat match type of H with
         | (if String.eqb ?a k then _ else _) = _ =>
             destruct (String.eqb_spec a k) as [<- | _];
               [injection H as <-; cbn; intuition discriminate |]
         end.
  discriminate H.
Qed.

Lemma reproject_kernels_are_resample_kernels_witness :
  Resampling.getattr "cubic" = Return Resampling.cubic.
Proof.
  apply (reproject_kernels_are_resample_kernels "cubic" Resampling.cubic
           eq_refl).
Defined.


Section KernelFacts.

Variable calculate_default_transform :
  option string -> string -> Z -> Z -> Q * Q * Q * Q ->
  result (Affine * Z * Z).
Variable warp_reproject :
  raster -> Z -> raster -> Affine -> string -> Resampling.t ->
  result (list Z).


End KernelFacts.


(** ** Validation in reclassify_raster *)

(** X12. reclassify_raster checks the input path before the rule set: a
    missing input fails with "Input raster not found", an existing input
    with an empty rule set with "No classification rules provided", both
    as GISProcessingError.  Although nothing was written, the cleanup
    handler then removes whatever file was at the output path before the
    call (when the deletion goes through) and touches nothing else. *)
Theorem reclassify_validation_failures ev inp out rules fs :
  unlink_error ev = None ->
  (fs inp = None \/ rules = []) ->
  exists fs',
    reclassify_raster ev inp out rules fs =
    (Raise (mk_exc GISProcessingError
              ("Raster reclassification failed: " +++
               match fs inp with
               | None => "Input raster not found: " +++ inp
               | Some _ => "No classification rules provided"%string
               end)), fs')
    /\ fs' out = None
    /\ forall q, q <> out -> fs' q = fs q.
Proof.
  intros Hu Hbad.
  assert (T : exists e0,
             reclassify_try ev inp out rules fs = (Raise e0, fs)
             /\ is_Exception e0
             /\ msg e0 = match fs inp with
                         | None => "Input raster not found: " +++ inp
                         | Some _ => "No classification rules provided"%string
                         end).
  { unfold reclassify_try, bind at 1, get_fs at 1, fs_exists.
    destruct (fs inp) as [x |] eqn:E; cbn [negb].
    - destruct Hbad as [Hbad | ->]; [discriminate Hbad |].
      eexists. split; [reflexivity |]. split; reflexivity.
    - eexists. split; [reflexivity |]. split; reflexivity. }
  destruct T as (e0 & T & X & M).
  unfold reclassify_raster, try_except. rewrite T, X.
  destruct (reclassify_except_run ev out e0 fs) as (fs1 & R & U & _).
  exists fs1. rewrite R, M. split; [reflexivity |].
  split; [exact (U Hu) |].
  intros q N.
  eapply (changes_only_reclassify_raster ev inp out rules fs _ fs1);
    [| exact N].
  unfold reclassify_raster, try_except. rewrite T, X. exact R.
Qed.

Lemma reclassify_validation_failures_witness :
  exists fs',
    reclassify_raster ok_env "missing.tif" "out.tif" scenario_rules rerun_fs
    = (Raise (mk_exc GISProcessingError
         "Raster reclassification failed: Input raster not found: missing.tif"),
       fs')
    /\ fs' "out.tif"%string = None.
Proof.
  destruct (reclassify_validation_failures ok_env "missing.tif" "out.tif"
              scenario_rules rerun_fs eq_refl (or_introl eq_refl))
    as (fs' & R & U & _).
  exists fs'. split; [exact R | exact U].
Defined.

(** * Further properties of the vector processor *)

Import VectorProcessor.

Section UnionMore.

Variable pyproj_transform : string -> string -> Q * Q -> Q * Q.






End UnionMore.


Import VectorOverlay.


Lemma to_crs_one_missing pt gdf other :
  one_crs_missing (gdf_crs gdf) (gdf_crs other) ->
  exists e, to_crs_of pt gdf other = Raise e /\ is_Exception e.
Proof.
  unfold one_crs_missing, to_crs_of, VectorProcessor.to_crs.
  intros [[H1 H2] | [H1 H2]].
  - rewrite H1. destruct (gdf_crs other); [| contradiction H2; reflexivity].
    eexists. split; reflexivity.
  - rewrite H2. destruct (gdf_crs gdf); [| contradiction H1; reflexivity].
    eexists. split; reflexivity.
Qed.

Section OverlayFacts.

Variable pyproj_transform : string -> string -> Q * Q -> Q * Q.
Variable from_user_input : string -> result string.
Variable gdf_clip : GeoDataFrame -> GeoDataFrame -> result GeoDataFrame.
Variable overlay :
  string -> GeoDataFrame -> GeoDataFrame -> result GeoDataFrame.

Lemma binary_operation_one_missing ev operation failure ip op out fs A B :
  fs ip = Some (VectorFile A) ->
  fs op = Some (VectorFile B) ->
  one_crs_missing (gdf_crs A) (gdf_crs B) ->
  exists e,
    binary_operation pyproj_transform ev operation failure ip op out fs =
    (Raise e, fs)
    /\ wraps failure e.
Proof.
  intros HA HB Hm.
  destruct (to_crs_one_missing pyproj_transform A B Hm) as (e0 & E & X).
  unfold binary_operation, try_except.
  rewrite (bind_run _ _ _ _ _ (read_file_run _ _ _ HA)).
  rewrite (bind_run _ _ _ _ _ (read_file_run _ _ _ HB)).
  unfold bind at 1, lift at 1. rewrite E, X.
  eexists. split; [reflexivity |]. split; [reflexivity |].
  eexists. reflexivity.
Qed.

(** X14. The four binary vector operations bring the second input to the
    CRS of the first and cannot do so when exactly one of the two has a
    CRS: clip, erase, intersection and symmetric difference then each fail
    with their own GISProcessingError, before the overlay is computed, and
    write nothing. *)
Theorem binary_vector_operations_need_both_crs ev ip op out fs A B :
  fs ip = Some (VectorFile A) ->
  fs op = Some (VectorFile B) ->
  one_crs_missing (gdf_crs A) (gdf_crs B) ->
  (exists e,
     clip_vector pyproj_transform gdf_clip ev ip op out fs = (Raise e, fs)
     /\ wraps "Failed to clip: " e)
  /\ (exists e,
        erase_vector pyproj_transform overlay ev ip op out fs = (Raise e, fs)
        /\ wraps "Failed to erase vector: " e)
  /\ (exists e,
        intersection_vectors pyproj_transform overlay ev ip op out fs =
        (Raise e, fs)
        /\ wraps "Intersection operation failed: " e)
  /\ (exists e,
        symmetric_difference_vectors pyproj_transform overlay ev ip op out fs
        = (Raise e, fs)
        /\ wraps "Symmetrical difference failed: " e).
Proof.
  intros HA HB Hm.
  repeat split; eapply binary_operation_one_missing; eassumption.
Qed.

Hypothesis from_user_input_raises :
  forall s, raises_Exception (from_user_input s).
Hypothesis gdf_clip_raises : forall g o, raises_Exception (gdf_clip g o).
Hypothesis overlay_raises : forall h g o, raises_Exception (overlay h g o).





End OverlayFacts.

Lemma binary_vector_operations_need_both_crs_witness :
  exists e,
    intersection_vectors demo_pyproj_transform demo_overlay ok_env
      "a.shp" "n.shp" "out.shp" layers_fs = (Raise e, layers_fs)
    /\ wraps "Intersection operation failed: " e.
Proof.
  assert (HA : layers_fs "a.shp"%string = Some (VectorFile layer_A))
    by reflexivity.
  assert (HN : layers_fs "n.shp"%string = Some (VectorFile layer_N))
    by reflexivity.
  assert (Hm : one_crs_missing (gdf_crs layer_A) (gdf_crs layer_N))
    by (right; split; [discriminate | reflexivity]).
  destruct (binary_vector_operations_need_both_crs demo_pyproj_transform
              demo_gdf_clip demo_overlay ok_env "a.shp" "n.shp" "out.shp"
              layers_fs layer_A layer_N HA HN Hm) as (_ & _ & H & _).
  exact H.
Defined.


Section ReprojectVectorFacts.

Variable pyproj_transform : string -> string -> Q * Q -> Q * Q.
Variable from_user_input : string -> result string.

Lemma reproject_vector_Return_inv ev ip out target fs b fs' :
  reproject_vector pyproj_transform from_user_input ev ip out target fs =
  (Return b, fs') ->
  exists g r,
    fs ip = Some (VectorFile g)
    /\ to_crs_string pyproj_transform from_user_input g target = Return r
    /\ write ev = WriteOk
    /\ b = true
    /\ fs' = fs_put out (VectorFile r) fs.
Proof.
  unfold reproject_vector. intro H.
  apply try_except_Return_inv in H as [H | (e & fs0 & _ & H)];
    [| discriminate H].
  apply bind_Return_inv in H as (g & fs1 & Hr & H).
  unfold read_file, bind, get_fs, ret, raise in Hr.
  destruct (fs ip) as [[x | g0 |] |] eqn:E; try discriminate Hr.
  injection Hr as -> <-.
  apply bind_Return_inv in H as (r & fs1 & T & H).
  injection T as T <-.
  apply bind_Return_inv in H as (u & fs1 & W & H).
  apply write_file_Return_inv in W as [W ->].
  injection H as <- <-.
  exists g, r. repeat split; assumption.
Qed.

(** X16. A vector reprojection that returns has written a layer in the
    CRS the target string names, with as many rows as the input and, row
    by row, the same attributes; only coordinates change, and not even
    those when the input is in the target CRS already.  An input without
    CRS is not reprojected: the operation fails and writes nothing. *)
Theorem reproject_vector_keeps_rows ev ip out target fs g :
  fs ip = Some (VectorFile g) ->
  (forall b fs',
     reproject_vector pyproj_transform from_user_input ev ip out target fs =
     (Return b, fs') ->
     exists from to r,
       gdf_crs g = Some from
       /\ from_user_input target = Return to
       /\ fs' out = Some (VectorFile r)
       /\ gdf_crs r = Some to
       /\ List.length (features r) = List.length (features g)
       /\ map attributes (features r) = map attributes (features g)
       /\ (from = to -> r = g))
  /\ (gdf_crs g = None ->
      exists e,
        reproject_vector pyproj_transform from_user_input ev ip out target fs
        = (Raise e, fs)
        /\ wraps "Failed to reproject vector: " e).
Proof.
  intro Hg. split.
  - intros b fs' R.
    apply reproject_vector_Return_inv in R
      as (g' & r & Hg' & T & _ & _ & ->).
    rewrite Hg in Hg'. injection Hg' as <-.
    unfold to_crs_string in T.
    destruct (gdf_crs g) as [from |] eqn:Ef; [| discriminate T].
    destruct (from_user_input target) as [to | e0] eqn:Et;
      [| discriminate T].
    cbn [and_then] in T. exists from, to, r.
    split; [reflexivity |]. split; [reflexivity |].
    split; [apply fs_put_same |].
    destruct (String.eqb_spec from to) as [-> | N].
    + injection T as <-. rewrite Ef. repeat split; reflexivity.
    + unfold VectorProcessor.to_crs in T. rewrite Ef in T.
      injection T as <-. cbn [gdf_crs features].
      split; [reflexivity |]. split; [apply length_map |].
      split; [| intro E; contradiction].
      rewrite map_map. reflexivity.
  - intro Hn.
    unfold reproject_vector, try_except.
    rewrite (bind_run _ _ _ _ _ (read_file_run _ _ _ Hg)).
    unfold bind at 1, lift at 1, to_crs_string. rewrite Hn.
    eexists. split; [reflexivity |]. split; [reflexivity |].
    eexists. reflexivity.
Qed.

(** X17. When pyproj's transformation towards the target CRS is undone
    by the one back, reprojecting a layer to the target and the result back
    to the CRS of the layer restores the layer exactly: its CRS, rows,
    geometries and attributes. *)
Theorem reproject_vector_round_trip ev ip mid back ta tb fs g a b :
  fs ip = Some (VectorFile g) ->
  gdf_crs g = Some a ->
  from_user_input ta = Return a ->
  from_user_input tb = Return b ->
  (forall p, pyproj_transform b a (pyproj_transform a b p) = p) ->
  write ev = WriteOk ->
  exists fs1 fs2,
    reproject_vector pyproj_transform from_user_input ev ip mid tb fs =
    (Return true, fs1)
    /\ reproject_vector pyproj_transform from_user_input ev mid back ta fs1
       = (Return true, fs2)
    /\ fs2 back = Some (VectorFile g).
Proof.
  intros Hg Ha Hta Htb Hinv W.
  assert (Run : forall fs0 p o t (c : string) g0 r,
             fs0 p = Some (VectorFile g0) ->
             to_crs_string pyproj_transform from_user_input g0 t = Return r ->
             reproject_vector pyproj_transform from_user_input ev p o t fs0 =
             (Return true, fs_put o (VectorFile r) fs0)).
  { intros fs0 p o t c g0 r H0 T. unfold reproject_vector, try_except.
    rewrite (bind_run _ _ _ _ _ (read_file_run _ _ _ H0)).
    unfold bind at 1, lift at 1. rewrite T, W.
    unfold bind at 1. rewrite write_file_run. reflexivity. }
  destruct (String.eqb_spec a b) as [<- | N].
  - assert (T : forall t, from_user_input t = Return a ->
                to_crs_string pyproj_transform from_user_input g t =
                Return g).
    { intros t Ht. unfold to_crs_string.
      rewrite Ha, Ht. cbn [and_then]. rewrite String.eqb_refl.
      reflexivity. }
    exists (fs_put mid (VectorFile g) fs),
      (fs_put back (VectorFile g) (fs_put mid (VectorFile g) fs)).
    split; [apply (Run fs ip mid tb a g g Hg (T tb Htb)) |].
    split; [| apply fs_put_same].
    apply (Run _ mid back ta a g g (fs_put_same _ _ _) (T ta Hta)).
  - set (g1 := mk_GeoDataFrame (Some b)
                 (map (fun ft => mk_feature
                         (map (pyproj_transform a b) (geometry ft))
                         (attributes ft)) (features g))).
    assert (T1 : to_crs_string pyproj_transform from_user_input g tb =
                 Return g1).
    { unfold to_crs_string. rewrite Ha, Htb. cbn [and_then].
      destruct (String.eqb_spec a b) as [E | _]; [contradiction |].
      unfold VectorProcessor.to_crs. rewrite Ha. reflexivity. }
    assert (T2 : to_crs_string pyproj_transform from_user_input g1 ta =
                 Return g).
    { unfold to_crs_string. cbn [gdf_crs g1]. rewrite Hta.
      cbn [and_then].
      destruct (String.eqb_spec b a) as [E | _];
        [contradiction N; symmetry; exact E |].
      unfold VectorProcessor.to_crs. cbn [gdf_crs features g1].
      f_equal. destruct g as [c fts]. cbn [gdf_crs features] in *.
      rewrite Ha. f_equal. rewrite map_map.
      rewrite <- (map_id fts) at 2. apply map_ext. intros [geo att].
      cbn [geometry attributes]. f_equal. rewrite map_map.
      rewrite <- (map_id geo) at 2. apply map_ext, Hinv. }
    exists (fs_put mid (VectorFile g1) fs),
      (fs_put back (VectorFile g) (fs_put mid (VectorFile g1) fs)).
    split; [apply (Run fs ip mid tb b g g1 Hg T1) |].
    split; [| apply fs_put_same].
    apply (Run _ mid back ta a g1 g (fs_put_same _ _ _) T2).
Qed.

End ReprojectVectorFacts.

Lemma reproject_vector_keeps_rows_witness :
  exists r,
    snd (reproject_vector demo_pyproj_transform demo_from_user_input ok_env
           "a.shp" "out.shp" "EPSG:3857" layers_fs) "out.shp"%string =
    Some (VectorFile r)
    /\ gdf_crs r = Some "EPSG:3857"%string
    /\ List.length (features r) = 2%nat.
Proof.
  destruct (proj1 (reproject_vector_keeps_rows demo_pyproj_transform
                     demo_from_user_input ok_env "a.shp" "out.shp"
                     "EPSG:3857" layers_fs layer_A eq_refl)
              true
              (snd (reproject_vector demo_pyproj_transform
                      demo_from_user_input ok_env "a.shp" "out.shp"
                      "EPSG:3857" layers_fs))
              eq_refl)
    as (from & to & r & _ & Hto & Hout & Hcrs & Hlen & _).
  injection Hto as <-.
  exists r. split; [exact Hout |]. split; [exact Hcrs | exact Hlen].
Defined.

Lemma reproject_vector_round_trip_witness :
  exists fs1 fs2,
    reproject_vector swap_axes demo_from_user_input ok_env
      "a.shp" "mid.shp" "EPSG:3857" layers_fs = (Return true, fs1)
    /\ reproject_vector swap_axes demo_from_user_input ok_env
         "mid.shp" "back.shp" "EPSG:4326" fs1 = (Return true, fs2)
    /\ fs2 "back.shp"%string = Some (VectorFile layer_A).
Proof.
  apply (reproject_vector_round_trip swap_axes demo_from_user_input ok_env
           "a.shp" "mid.shp" "back.shp" "EPSG:4326" "EPSG:3857" layers_fs
           layer_A "EPSG:4326" "EPSG:3857").
  - reflexivity.
  - reflexivity.
  - reflexivity.
  - reflexivity.
  - intros [x y]. reflexivity.
  - reflexivity.
Defined.

(** * Clipping a raster with a vector boundary *)

Import RasterVectorClip.

Section RasterVectorFacts.

Variable pyproj_transform : string -> string -> Q * Q -> Q * Q.
Variable rasterio_mask :
  raster -> list (list (Q * Q)) -> option Z ->
  result (list (list Z) * Z * Z * Affine).



End RasterVectorFacts.


(** * Further properties of the file manager and the format handlers *)

Import PathLib FileManager FormatHandlers.

(** ** Strings *)

Lemma append_assoc s t u : (s +++ t) +++ u = s +++ t +++ u.
Proof. induction s as [| c s IH]; cbn; [reflexivity | now rewrite IH]. Qed.

Lemma length_append s t :
  String.length (s +++ t) = (String.length s + String.length t)%nat.
Proof. induction s as [| c s IH]; cbn; [reflexivity | now rewrite IH]. Qed.

Lemma append_inv_head s t u : s +++ t = s +++ u -> t = u.
Proof.
  induction s as [| c s IH]; cbn; intro H; [exact H |].
  injection H as H. apply IH, H.
Qed.

Lemma substring_prefix s t : String.substring 0 (String.length s) (s +++ t) = s.
Proof.
  induction s as [| c s IH]; cbn.
  - destruct t; reflexivity.
  - now rewrite IH.
Qed.

Lemma drop_last_append s t : drop_last (String.length t) (s +++ t) = s.
Proof.
  unfold drop_last. rewrite length_append.
  replace (String.length s + String.length t - String.length t)%nat
    with (String.length s) by lia.
  apply substring_prefix.
Qed.

(** ** Names and suffixes *)

Lemma has_slash_append s t :
  has_slash (s +++ t) = (has_slash s || has_slash t)%bool.
Proof.
  induction s as [| c s IH]; cbn; [reflexivity |].
  rewrite IH. apply orb_assoc.
Qed.

Lemma name_without_slash n : has_slash n = false -> name n = n.
Proof.
  destruct n as [| c n]; cbn; [reflexivity |].
  intro H. apply orb_false_iff in H as [Hc Hn]. now rewrite Hn, Hc.
Qed.

(** A path is a directory part followed by its name; the same directory
    part in front of another name gives a path with that name. *)
Lemma name_split p :
  exists dir,
    p = dir +++ name p
    /\ has_slash (name p) = false
    /\ forall n, has_slash n = false -> name (dir +++ n) = n.
Proof.
  induction p as [| c p (dir & E & Hn & Hd)].
  - exists ""%string. cbn. repeat split. intros n. apply name_without_slash.
  - cbn [name]. destruct (has_slash p) eqn:Hp.
    + exists (String c dir). split; [cbn; now rewrite <- E |].
      split; [exact Hn |]. intros n Hs. cbn [String.append name].
      assert (X : has_slash (dir +++ n) = true).
      { rewrite has_slash_append.
        rewrite E, has_slash_append, Hn, orb_false_r in Hp.
        now rewrite Hp. }
      rewrite X. apply Hd, Hs.
    + destruct (is_slash c) eqn:Hc.
      * exists (String c ""). split; [reflexivity |]. split; [exact Hp |].
        intros n Hs. cbn. now rewrite Hs, Hc.
      * exists ""%string. split; [reflexivity |].
        split; [cbn; now rewrite Hc, Hp |].
        intros n. apply name_without_slash.
Qed.

Lemma from_last_dot_inv n t :
  from_last_dot n = Some t ->
  exists stem t',
    n = stem +++ t /\ t = String "."%char t' /\ from_last_dot t' = None.
Proof.
  revert t. induction n as [| c n IH]; intros t H; [discriminate H |].
  cbn [from_last_dot] in H. destruct (from_last_dot n) as [t0 |] eqn:E.
  - injection H as <-. destruct (IH t0 eq_refl) as (stem & t' & -> & -> & N).
    exists (String c stem), t'. repeat split. exact N.
  - destruct (is_dot c) eqn:Hc; [| discriminate H]. injection H as <-.
    apply Ascii.eqb_eq in Hc. subst c.
    exists ""%string, n. repeat split. exact E.
Qed.

Lemma from_last_dot_append stem t' :
  from_last_dot t' = None ->
  from_last_dot (stem +++ String "."%char t') = Some (String "."%char t').
Proof.
  intro N. induction stem as [| c stem IH].
  - cbn. now rewrite N.
  - cbn [String.append from_last_dot]. now rewrite IH.
Qed.

(** A path with a suffix is a directory part, a stem that is not empty
    and the suffix. *)
Lemma suffix_split p :
  suffix p <> ""%string ->
  exists dir stem,
    p = dir +++ stem +++ suffix p
    /\ stem <> ""%string
    /\ has_slash stem = false
    /\ forall n, has_slash n = false -> name (dir +++ n) = n.
Proof.
  intro H. destruct (name_split p) as (dir & E & Hn & Hd).
  unfold suffix in *. destruct (from_last_dot (name p)) as [t |] eqn:F;
    [| contradiction H; reflexivity].
  destruct (_ && _)%bool eqn:L; [| contradiction H; reflexivity].
  apply andb_true_iff in L as [L _]. apply Nat.ltb_lt in L.
  destruct (from_last_dot_inv _ _ F) as (stem & t' & En & _ & _).
  exists dir, stem. split; [now rewrite <- En |].
  rewrite En, has_slash_append in Hn. apply orb_false_iff in Hn as [Hs _].
  split; [| split; [exact Hs | exact Hd]].
  intros ->. rewrite En in L. cbn in L. lia.
Qed.

(** Replacing the suffix of a path that has one. *)
Lemma with_suffix_split p dir stem sfx :
  p = dir +++ stem +++ suffix p ->
  with_suffix p sfx = dir +++ stem +++ sfx.
Proof.
  intro E. unfold with_suffix.
  rewrite E at 2. rewrite <- append_assoc, drop_last_append.
  apply append_assoc.
Qed.

Lemma suffix_with_suffix_kml p :
  suffix p <> ""%string -> suffix (with_suffix p ".kml") = ".kml"%string.
Proof.
  intro H. destruct (suffix_split p H) as (dir & stem & E & Hs & Hn & Hd).
  rewrite (with_suffix_split p dir stem _ E).
  unfold suffix. rewrite Hd.
  2:{ rewrite has_slash_append, Hn. reflexivity. }
  rewrite (from_last_dot_append stem "kml" eq_refl).
  rewrite length_append. destruct stem as [| c stem];
    [contradiction Hs; reflexivity |].
  assert (L : Nat.ltb (String.length ".kml")
                (String.length (String c stem) + String.length ".kml")
              = true) by (apply Nat.ltb_lt; cbn; lia).
  rewrite L. reflexivity.
Qed.

Lemma with_suffix_kml_differs p :
  lower (suffix p) = ".kmz"%string -> with_suffix p ".kml" <> p.
Proof.
  intros H X.
  assert (S : suffix p <> ""%string) by (intro S; rewrite S in H; discriminate H).
  destruct (suffix_split p S) as (dir & stem & E & _).
  rewrite (with_suffix_split p dir stem _ E) in X.
  assert (X' : dir +++ stem +++ ".kml" = dir +++ stem +++ suffix p)
    by (rewrite <- E; exact X).
  apply append_inv_head, append_inv_head in X'.
  rewrite <- X' in H. discriminate H.
Qed.

(** ** Handlers *)

Lemma first_handler_Some hs p h :
  first_handler hs p = Some h -> can_handle h p = true.
Proof.
  induction hs as [| h0 hs IH]; cbn; [discriminate |].
  destruct (can_handle h0 p) eqn:E; [| exact IH].
  intro H. injection H as <-. exact E.
Qed.

Lemma first_handler_None hs p :
  first_handler hs p = None -> forall h, In h hs -> can_handle h p = false.
Proof.
  induction hs as [| h0 hs IH]; cbn; intros H h Hin; [contradiction |].
  destruct (can_handle h0 p) eqn:E; [discriminate H |].
  destruct Hin as [<- | Hin]; [exact E | apply IH; assumption].
Qed.

(** No two handlers take the same file. *)
Lemma can_handle_exclusive h1 h2 p :
  can_handle h1 p = true -> can_handle h2 p = true -> h1 = h2.
Proof.
  unfold can_handle, mem, existsb. generalize (lower (suffix p)).
  intros s H1 H2.
  destruct h1; name_suffix; destruct h2;
    first [reflexivity | vm_compute in H2; discriminate H2].
Qed.

(** X19. FormatFactory.get_handler returns a handler exactly when that
    handler can handle the file: the five handlers take disjoint sets of
    extensions, all five are registered, and so the handler found does not
    depend on the order of the list. *)
Theorem get_handler_is_the_one_that_can_handle p h :
  get_handler FormatFactory_init p = Return h <-> can_handle h p = true.
Proof.
  unfold get_handler. split.
  - destruct (first_handler _ p) as [h0 |] eqn:E; [| discriminate].
    intro H. injection H as <-. apply (first_handler_Some _ _ _ E).
  - intro H. destruct (first_handler _ p) as [h0 |] eqn:E.
    + f_equal. apply (can_handle_exclusive h0 h p);
        [apply (first_handler_Some _ _ _ E) | exact H].
    + rewrite (first_handler_None _ _ E h) in H; [discriminate H |].
      destruct h; cbn; tauto.
Qed.

(** X20. The handlers and FileManager.detect_file_type agree where a
    handler exists, and detect_file_type accepts more: a file that gets a
    handler is detected as a raster when the handler reads rasters and as
    a vector otherwise; a file without handler fails get_handler with a
    DataFormatError, and it is still detected as a raster for .img, .jpg,
    .jpeg, .png and .bmp and as a vector for .kml, .gpkg and .gml. *)
Theorem handlers_agree_with_detect_file_type p :
  (forall h,
     get_handler FormatFactory_init p = Return h ->
     detect_file_type p =
     Return (if reads_rasters h then "raster" else "vector")%string)
  /\ (forall e,
        get_handler FormatFactory_init p = Raise e ->
        cls e = DataFormatError
        /\ (detect_file_type p = Return "raster"%string <->
            mem (lower (suffix p)) raster_without_handler = true)
        /\ (detect_file_type p = Return "vector"%string <->
            mem (lower (suffix p)) vector_without_handler = true)).
Proof.
  unfold get_handler, detect_file_type, FormatFactory_init, handlers,
    first_handler, can_handle, raster_without_handler,
    vector_without_handler, RASTER_EXTENSIONS, VECTOR_EXTENSIONS, mem,
    existsb.
  generalize (lower (suffix p)). intros s. split.
  - intros h. by_extension s. cbn [orb]. settle.
  - intros e. by_extension s. cbn [orb]. settle.
Qed.

(** X21. KMZHandler.write never raises, and a target with the suffix
    .kmz, in any case of the letters, is not the file it writes: the data
    go to the path with the suffix .kml and the .kmz path stays as it
    was, also when True is returned.  The file written has an extension
    that the file manager takes for a vector and for which the factory has
    no handler. *)
Theorem KMZHandler_write_goes_to_kml ev data p fs :
  lower (suffix p) = ".kmz"%string ->
  with_suffix p ".kml" <> p
  /\ (exists b fs',
        KMZHandler_write ev data p fs = (Return b, fs')
        /\ fs' p = fs p
        /\ (b = true <-> write ev = WriteOk)
        /\ (b = true ->
            fs' (with_suffix p ".kml") = Some (VectorFile data)))
  /\ detect_file_type (with_suffix p ".kml") = Return "vector"%string
  /\ exists e,
       get_handler FormatFactory_init (with_suffix p ".kml") = Raise e
       /\ cls e = DataFormatError.
Proof.
  intro H. pose proof (with_suffix_kml_differs p H) as D.
  assert (S : suffix p <> ""%string)
    by (intro S; rewrite S in H; discriminate H).
  pose proof (suffix_with_suffix_kml p S) as K.
  split; [exact D |]. split; [| split].
  - unfold KMZHandler_write, returns_success. rewrite H, String.eqb_refl.
    unfold try_except, bind, write_file, get_fs, set_fs, ret, raise.
    destruct (write ev) as [| [] m]; cbn.
    + eexists _, _. split; [reflexivity |].
      split; [apply fs_put_other; intro X; apply D; symmetry; exact X |].
      split; [tauto |]. intros _. apply fs_put_same.
    + eexists _, _. split; [reflexivity |].
      split; [apply fs_put_other; intro X; apply D; symmetry; exact X |].
      split; [split; discriminate | discriminate].
    + eexists _, _. split; [reflexivity |]. split; [reflexivity |].
      split; [split; discriminate | discriminate].
  - unfold detect_file_type. rewrite K. reflexivity.
  - unfold get_handler, FormatFactory_init, handlers, first_handler,
      can_handle. rewrite K. eexists. split; reflexivity.
Qed.

Lemma KMZHandler_write_goes_to_kml_witness :
  exists fs',
    KMZHandler_write ok_env layer_A "out/Places.KMZ" layers_fs
    = (Return true, fs')
    /\ fs' "out/Places.KMZ"%string = None
    /\ fs' "out/Places.kml"%string = Some (VectorFile layer_A).
Proof.
  destruct (KMZHandler_write_goes_to_kml ok_env layer_A "out/Places.KMZ"
              layers_fs eq_refl)
    as (_ & (b & fs' & R & Hp & Hb & Hk) & _).
  assert (B : b = true) by (apply Hb; reflexivity).
  subst b. exists fs'. split; [exact R |].
  split; [rewrite Hp; reflexivity | exact (Hk eq_refl)].
Defined.

(** * Further properties of loading datasets *)

Import DatasetModels.

Lemma validate_file_access_run ac p fs :
  validate_file_access ac p fs =
  (match fs p with
   | None => Raise (mk_exc FileAccessError ("File not found: " +++ p))
   | Some _ =>
       if is_file ac p
       then if permission_denied ac p
            then Raise (mk_exc FileAccessError ("Permission denied: " +++ p))
            else Return true
       else Raise (mk_exc FileAccessError ("Path is not a file: " +++ p))
   end, fs).
Proof.
  unfold validate_file_access, bind, get_fs, fs_exists, raise, ret,
    try_except_class.
  destruct (fs p); cbn; [| reflexivity].
  destruct (is_file ac p); cbn; [| reflexivity].
  destruct (permission_denied ac p); reflexivity.
Qed.

Lemma detect_file_type_inv p r :
  detect_file_type p = r ->
  match r with
  | Return t => t = "raster"%string \/ t = "vector"%string
  | Raise e => cls e = DataFormatError
  end.
Proof.
  unfold detect_file_type. intros <-.
  destruct (mem _ RASTER_EXTENSIONS); [left; reflexivity |].
  destruct (mem _ VECTOR_EXTENSIONS); [right |]; reflexivity.
Qed.

Section LoadFacts.

Variable to_epsg : string -> option Z.
Variable to_wkt : string -> string.
Variable geom_type : feature -> string.
Variable total_bounds : list feature -> Q * Q * Q * Q.

Lemma RasterDataset_init_inv p fs r fs' :
  RasterDataset_init to_epsg to_wkt p fs = (r, fs') ->
  fs' = fs
  /\ match r with
     | Return d =>
         exists src,
           fs p = Some (RasterFile src)
           /\ bands src <> []
           /\ rd_crs d =
              DataModels.mk_ProjectionInfo
                (match crs src with Some c => to_epsg c | None => None end)
                None
                (match crs src with
                 | Some c => Some (to_wkt c)
                 | None => None
                 end)
                None
           /\ bb_crs (rd_bounds d) = rd_crs d
           /\ rd_band_count d = Datasets.count src
           /\ rd_metadata d = with_bands src []
     | Raise e =>
         cls e = ValueError
         /\ forall src, fs p = Some (RasterFile src) -> bands src = []
     end.
Proof.
  unfold RasterDataset_init, try_except, bind, rasterio_open, get_fs, ret,
    raise, lift, first_dtype.
  cbn. destruct (fs p) as [[src | g |] |]; cbn.
  - destruct (bands src) as [| b bs] eqn:Eb; cbn; intro H;
      injection H as <- <-; (split; [reflexivity |]).
    + split; [reflexivity | intros s E; injection E as <-; exact Eb].
    + exists src. unfold Datasets.count. rewrite Eb.
      repeat split. discriminate.
  - intro H. injection H as <- <-. repeat split. discriminate.
  - intro H. injection H as <- <-. repeat split. discriminate.
  - intro H. injection H as <- <-. repeat split. discriminate.
Qed.

Lemma VectorDataset_init_inv p fs r fs' :
  VectorDataset_init to_epsg geom_type total_bounds p fs = (r, fs') ->
  fs' = fs
  /\ match r with
     | Return d =>
         exists g,
           fs p = Some (VectorFile g)
           /\ features g <> []
           /\ vd_crs d =
              DataModels.mk_ProjectionInfo
                (match gdf_crs g with Some c => to_epsg c | None => None end)
                None None None
           /\ bb_crs (vd_bounds d) = vd_crs d
           /\ vd_feature_count d = Z.of_nat (List.length (features g))
     | Raise e =>
         cls e = ValueError
         /\ forall g, fs p = Some (VectorFile g) -> features g = []
     end.
Proof.
  unfold VectorDataset_init, read_file_rows, try_except, bind, read_file,
    get_fs, ret, raise, lift, first_geom_type.
  cbn. destruct (fs p) as [[src | g |] |] eqn:Efs; cbn.
  - intro H. injection H as <- <-. repeat split. discriminate.
  - destruct (features g) as [| ft fts] eqn:Ef; cbn.
    + intro H. injection H as <- <-. repeat split.
      intros g0 E. injection E as <-. exact Ef.
    + rewrite Efs, Ef.
      destruct (total_bounds (ft :: fts)) as [[[x0 y0] x1] y1].
      intro H. injection H as <- <-. split; [reflexivity |].
      exists g. rewrite Ef. repeat split. discriminate.
  - intro H. injection H as <- <-. repeat split. discriminate.
  - intro H. injection H as <- <-. repeat split. discriminate.
Qed.

(** X22. FileManager.load_dataset changes no file and never returns
    None.  Access is checked before the format: a failure is a
    FileAccessError exactly when the path is missing, is no regular file
    or may not be read; for an accessible file it is the DataFormatError
    of detect_file_type, or, when the content does not load as the
    extension promises, a ValueError, which is no GISProcessingError.  A
    raster is returned only for a raster extension and a vector only for
    a vector extension, and the vector has at least one row. *)
Theorem load_dataset_outcome ac p fs r fs' :
  load_dataset to_epsg to_wkt geom_type total_bounds ac p fs = (r, fs') ->
  fs' = fs
  /\ match r with
     | Return None => False
     | Return (Some (Raster d)) =>
         detect_file_type p = Return "raster"%string
         /\ exists src,
              fs p = Some (RasterFile src)
              /\ rd_metadata d = with_bands src []
     | Return (Some (Vector d)) =>
         detect_file_type p = Return "vector"%string
         /\ exists g,
              fs p = Some (VectorFile g)
              /\ vd_feature_count d = Z.of_nat (List.length (features g))
              /\ 0 < vd_feature_count d
     | Raise e =>
         (cls e = FileAccessError
          /\ (fs p = None \/ is_file ac p = false
              \/ permission_denied ac p = true))
         \/ (fs p <> None /\ is_file ac p = true
             /\ permission_denied ac p = false
             /\ ((cls e = DataFormatError /\ detect_file_type p = Raise e)
                 \/ (cls e = ValueError
                     /\ isinstance e GISProcessingError = false
                     /\ exists t, detect_file_type p = Return t)))
     end.
Proof.
  intro R. unfold load_dataset in R. unfold bind at 1 in R.
  rewrite validate_file_access_run in R.
  destruct (fs p) as [f |] eqn:Ef.
  2:{ injection R as <- <-. split; [reflexivity |]. left. tauto. }
  destruct (is_file ac p) eqn:Ei.
  2:{ injection R as <- <-. split; [reflexivity |]. left. tauto. }
  destruct (permission_denied ac p) eqn:Ep.
  1:{ injection R as <- <-. split; [reflexivity |]. left. tauto. }
  unfold bind at 1, lift in R.
  destruct (detect_file_type p) as [t | e0] eqn:Ed.
  2:{ injection R as <- <-. split; [reflexivity |]. right.
      repeat split; try discriminate. left. split; [| reflexivity].
      apply (detect_file_type_inv p _ Ed). }
  destruct (detect_file_type_inv p _ Ed) as [-> | ->].
  - rewrite String.eqb_refl in R. unfold bind, ret in R.
    destruct (RasterDataset_init to_epsg to_wkt p fs) as [[d | e] fs1] eqn:Er;
      apply RasterDataset_init_inv in Er as [-> Er];
      injection R as <- <-; (split; [reflexivity |]).
    + split; [reflexivity |].
      destruct Er as (src & Es & _ & _ & _ & _ & Em).
      rewrite Ef in Es. injection Es as ->. exists src. split; [| exact Em].
      reflexivity.
    + right. repeat split; try discriminate. right.
      destruct Er as [Ec _]. split; [exact Ec |]. split.
      * unfold isinstance. rewrite Ec. reflexivity.
      * eexists. reflexivity.
  - change (String.eqb "vector" "raster") with false in R.
    rewrite String.eqb_refl in R. unfold bind, ret in R.
    destruct (VectorDataset_init to_epsg geom_type total_bounds p fs)
      as [[d | e] fs1] eqn:Er;
      apply VectorDataset_init_inv in Er as [-> Er];
      injection R as <- <-; (split; [reflexivity |]).
    + split; [reflexivity |].
      destruct Er as (g & Eg & Hne & _ & _ & Hc).
      rewrite Ef in Eg. injection Eg as ->. exists g.
      split; [reflexivity |]. split; [exact Hc |].
      rewrite Hc. destruct (features g); [contradiction Hne; reflexivity |].
      cbn [List.length]. lia.
    + right. repeat split; try discriminate. right.
      destruct Er as [Ec _]. split; [exact Ec |]. split.
      * unfold isinstance. rewrite Ec. reflexivity.
      * eexists. reflexivity.
Qed.

(** X23. A loaded raster and a loaded vector resolve the same CRS
    differently.  A CRS with an EPSG code other than 0 resolves to the
    code form for both.  A CRS without EPSG code resolves, through
    ProjectionInfo.to_crs, to its WKT for a raster and to None for a
    vector, whose loader keeps the EPSG code only.  The bounding box of
    either carries the dataset's own projection. *)
Theorem loaded_crs_resolution p q fs c :
  (forall d fs' src,
     RasterDataset_init to_epsg to_wkt p fs = (Return d, fs') ->
     fs p = Some (RasterFile src) ->
     crs src = Some c ->
     bb_crs (rd_bounds d) = rd_crs d
     /\ (forall n, to_epsg c = Some n -> n <> 0 ->
         DataModels.to_crs (rd_crs d) = Some ("EPSG:" +++ str_int n))
     /\ (to_epsg c = None -> to_wkt c <> ""%string ->
         DataModels.to_crs (rd_crs d) = Some (to_wkt c)))
  /\ (forall d fs' g,
        VectorDataset_init to_epsg geom_type total_bounds q fs
        = (Return d, fs') ->
        fs q = Some (VectorFile g) ->
        gdf_crs g = Some c ->
        bb_crs (vd_bounds d) = vd_crs d
        /\ (forall n, to_epsg c = Some n -> n <> 0 ->
            DataModels.to_crs (vd_crs d)
            = Some ("EPSG:" +++ str_int n))
        /\ (to_epsg c = None -> DataModels.to_crs (vd_crs d) = None)).
Proof.
  split.
  - intros d fs' src R Es Ec.
    apply RasterDataset_init_inv in R
      as (_ & src' & Es' & _ & Hcrs & Hbb & _).
    rewrite Es in Es'. injection Es' as <-. rewrite Ec in Hcrs.
    split; [exact Hbb |]. rewrite Hcrs. unfold DataModels.to_crs.
    cbn [DataModels.epsg_code DataModels.proj4_string DataModels.wkt_string
         DataModels.truthy_int DataModels.truthy_str].
    split.
    + intros n -> Hn. cbn [DataModels.truthy_int].
      destruct (Z.eqb_spec n 0); [contradiction |]. reflexivity.
    + intros -> Hw. cbn [DataModels.truthy_int].
      destruct (String.eqb_spec (to_wkt c) ""); [contradiction |].
      reflexivity.
  - intros d fs' g R Eg Ec.
    apply VectorDataset_init_inv in R as (_ & g' & Eg' & _ & Hcrs & Hbb & _).
    rewrite Eg in Eg'. injection Eg' as <-. rewrite Ec in Hcrs.
    split; [exact Hbb |]. rewrite Hcrs. unfold DataModels.to_crs.
    cbn [DataModels.epsg_code DataModels.proj4_string DataModels.wkt_string
         DataModels.truthy_int DataModels.truthy_str].
    split.
    + intros n -> Hn. cbn [DataModels.truthy_int].
      destruct (Z.eqb_spec n 0); [contradiction |]. reflexivity.
    + intros ->. reflexivity.
Qed.

End LoadFacts.

Lemma load_dataset_outcome_witness :
  exists e,
    load_dataset demo_to_epsg demo_to_wkt demo_geom_type demo_total_bounds
      plain_access "layer.tif" site_fs = (Raise e, site_fs)
    /\ isinstance e GISProcessingError = false.
Proof.
  destruct (load_dataset demo_to_epsg demo_to_wkt demo_geom_type
              demo_total_bounds plain_access "layer.tif" site_fs)
    as [r fs'] eqn:E.
  destruct (load_dataset_outcome _ _ _ _ _ _ _ _ _ E) as [-> H].
  destruct r as [[[d | d] |] | e].
  - destruct H as [_ (src & Hs & _)]. discriminate Hs.
  - destruct H as [H _]. discriminate H.
  - contradiction.
  - exists e. split; [reflexivity |].
    destruct H as [[_ [H | [H | H]]] | (_ & _ & _ & [[_ H] | (_ & H & _)])];
      try discriminate H.
    exact H.
Defined.

Lemma loaded_crs_resolution_witness :
  (exists d,
     fst (RasterDataset_init demo_to_epsg demo_to_wkt "site.tif" site_fs)
     = Return d
     /\ DataModels.to_crs (rd_crs d) = Some "WKT[LOCAL_CS[site]]"%string)
  /\ (exists d,
        fst (VectorDataset_init demo_to_epsg demo_geom_type
               demo_total_bounds "site.shp" site_fs) = Return d
        /\ DataModels.to_crs (vd_crs d) = None).
Proof.
  destruct (loaded_crs_resolution demo_to_epsg demo_to_wkt demo_geom_type
              demo_total_bounds "site.tif" "site.shp" site_fs
              "LOCAL_CS[site]") as [HR HV].
  split.
  - eexists. split; [reflexivity |].
    match goal with
    | |- DataModels.to_crs (rd_crs ?d) = _ =>
        destruct (HR d site_fs site_raster eq_refl eq_refl eq_refl)
          as (_ & _ & H)
    end.
    apply H; [reflexivity | discriminate].
  - eexists. split; [reflexivity |].
    match goal with
    | |- DataModels.to_crs (vd_crs ?d) = _ =>
        destruct (HV d site_fs site_layer eq_refl eq_refl eq_refl)
          as (_ & _ & H)
    end.
    apply H. reflexivity.
Defined.

(** * Further properties of the validators *)

Import Validators.

(** The error is a DataFormatError proper. *)
Lemma detect_file_type_Raise p e :
  detect_file_type p = Raise e -> is_Exception e.
Proof.
  intro H. apply detect_file_type_inv in H. unfold is_Exception, isinstance.
  rewrite H. reflexivity.
Qed.

Section ValidatorFacts.

Variable isna : feature -> bool.


Lemma validate_vector_file_inv p fs r fs' :
  validate_vector_file isna p fs = (r, fs') ->
  fs' = fs
  /\ match r with
     | Return b =>
         b = true
         /\ exists g ft,
              fs p = Some (VectorFile g)
              /\ In ft (features g) /\ isna ft = false
     | Raise e =>
         cls e = DataFormatError
         /\ (exists m, msg e = "Cannot read vector file: " +++ m)
         /\ (forall g,
               fs p = Some (VectorFile g) -> features g = [] ->
               msg e =
               "Cannot read vector file: Vector file contains no features"%string)
     end.
Proof.
  unfold validate_vector_file, try_except, bind, read_file, get_fs, ret,
    raise.
  cbn. destruct (fs p) as [[src | g |] |] eqn:Efs; cbn.
  - intro H. injection H as <- <-. repeat split;
      try discriminate. eexists. reflexivity.
  - destruct (features g) as [| ft fts] eqn:Ef; cbn.
    + intro H. injection H as <- <-. repeat split.
      eexists. reflexivity.
    + destruct (isna ft && forallb isna fts)%bool eqn:Ea; cbn;
        intro H; injection H as <- <-; (split; [reflexivity |]).
      * repeat split; [eexists; reflexivity |].
        intros g0 E0 E1. injection E0 as <-. rewrite Ef in E1.
        discriminate E1.
      * split; [reflexivity |]. apply andb_false_iff in Ea.
        destruct Ea as [Ea | Ea].
        -- exists g, ft. rewrite Ef.
           repeat split; [left; reflexivity | exact Ea].
        -- assert (X : existsb (fun x => negb (isna x)) fts = true).
           { clear -Ea. induction fts as [| x fts IH]; [discriminate Ea |].
             cbn in *. apply andb_false_iff in Ea as [Ea | Ea].
             - rewrite Ea. reflexivity.
             - rewrite (IH Ea). apply orb_true_r. }
           apply existsb_exists in X as (x & Hx & Hn).
           exists g, x. rewrite Ef. repeat split; [right; exact Hx |].
           destruct (isna x); [discriminate Hn | reflexivity].
  - intro H. injection H as <- <-. repeat split;
      try discriminate. eexists. reflexivity.
  - intro H. injection H as <- <-. repeat split;
      try discriminate. eexists. reflexivity.
Qed.


End ValidatorFacts.

Lemma read_crs_inv t p fs r fs' :
  read_crs t p fs = (r, fs') ->
  fs' = fs
  /\ match r with
     | Return _ => True
     | Raise e => is_Exception e
     end.
Proof.
  unfold read_crs, bind, rasterio_open, read_file, get_fs, ret, raise.
  cbn. destruct (String.eqb t "raster");
    destruct (fs p) as [[src | g |] |]; cbn; intro H;
    injection H as <- <-; split; first [reflexivity | exact I].
Qed.

Lemma crs_ne_sym c1 c2 :
  RasterProcessor.crs_ne c1 c2 = RasterProcessor.crs_ne c2 c1.
Proof.
  destruct c1 as [s1 |], c2 as [s2 |]; cbn; try reflexivity.
  now rewrite String.eqb_sym.
Qed.

(** When the CRS validation returns. *)
Lemma validate_crs_compatibility_Return p1 p2 fs :
  validate_crs_compatibility p1 p2 fs = (Return true, fs) <->
  exists t1 t2 c1 c2,
    detect_file_type p1 = Return t1
    /\ detect_file_type p2 = Return t2
    /\ read_crs t1 p1 fs = (Return c1, fs)
    /\ read_crs t2 p2 fs = (Return c2, fs)
    /\ RasterProcessor.crs_ne c1 c2 = false.
Proof.
  unfold validate_crs_compatibility, try_except, bind, lift. split.
  - destruct (detect_file_type p1) as [t1 | e1];
      [| destruct (isinstance e1 Exception); discriminate].
    destruct (detect_file_type p2) as [t2 | e2];
      [| destruct (isinstance e2 Exception); discriminate].
    destruct (read_crs t1 p1 fs) as [[c1 | e] fs1] eqn:R1;
      [| destruct (isinstance e Exception); discriminate].
    apply read_crs_inv in R1 as X. destruct X as [-> _].
    destruct (read_crs t2 p2 fs) as [[c2 | e] fs2] eqn:R2;
      [| destruct (isinstance e Exception); discriminate].
    apply read_crs_inv in R2 as X. destruct X as [-> _].
    destruct (RasterProcessor.crs_ne c1 c2) eqn:N; [discriminate |].
    intros _. exists t1, t2, c1, c2. repeat split; assumption.
  - intros (t1 & t2 & c1 & c2 & -> & -> & -> & -> & ->). reflexivity.
Qed.

(** X25. validate_crs_compatibility changes no file, returns True or
    raises a ProjectionError whose message opens with
    "CRS validation failed: ", and nothing else: the DataFormatError of an
    unsupported extension and the error of a file that cannot be read are
    turned into ProjectionErrors, and the mismatch it finds itself is
    caught and prefixed a second time.  Its verdict does not depend on
    the order of the two files. *)
Theorem validate_crs_compatibility_outcome p1 p2 fs :
  (forall r fs',
     validate_crs_compatibility p1 p2 fs = (r, fs') ->
     fs' = fs
     /\ match r with
        | Return b => b = true
        | Raise e =>
            cls e = ProjectionError
            /\ exists m, msg e = "CRS validation failed: " +++ m
        end)
  /\ (forall e,
        detect_file_type p1 = Raise e ->
        validate_crs_compatibility p1 p2 fs =
        (Raise (mk_exc ProjectionError
                  ("CRS validation failed: " +++ msg e)), fs))
  /\ (forall t1 t2 c1 c2,
        detect_file_type p1 = Return t1 ->
        detect_file_type p2 = Return t2 ->
        read_crs t1 p1 fs = (Return c1, fs) ->
        read_crs t2 p2 fs = (Return c2, fs) ->
        c1 <> c2 ->
        validate_crs_compatibility p1 p2 fs =
        (Raise (mk_exc ProjectionError
                  ("CRS validation failed: CRS mismatch: " +++ str_crs c1
                   +++ " vs " +++ str_crs c2)), fs))
  /\ (validate_crs_compatibility p1 p2 fs = (Return true, fs) <->
      validate_crs_compatibility p2 p1 fs = (Return true, fs)).
Proof.
  split; [| split; [| split]].
  - intros r fs'.
    unfold validate_crs_compatibility, try_except, bind, lift.
    destruct (detect_file_type p1) as [t1 | e1] eqn:E1.
    2:{ rewrite (detect_file_type_Raise _ _ E1). intro H.
        injection H as <- <-. repeat split. eexists. reflexivity. }
    destruct (detect_file_type p2) as [t2 | e2] eqn:E2.
    2:{ rewrite (detect_file_type_Raise _ _ E2). intro H.
        injection H as <- <-. repeat split. eexists. reflexivity. }
    destruct (read_crs t1 p1 fs) as [[c1 | e] fs1] eqn:R1;
      apply read_crs_inv in R1 as [-> R1].
    2:{ rewrite R1. intro H.
        injection H as <- <-. repeat split. eexists. reflexivity. }
    destruct (read_crs t2 p2 fs) as [[c2 | e] fs2] eqn:R2;
      apply read_crs_inv in R2 as [-> R2].
    2:{ rewrite R2. intro H.
        injection H as <- <-. repeat split. eexists. reflexivity. }
    destruct (RasterProcessor.crs_ne c1 c2); cbn; intro H;
      injection H as <- <-; repeat split. eexists. reflexivity.
  - intros e E1.
    unfold validate_crs_compatibility, try_except, bind, lift.
    rewrite E1, (detect_file_type_Raise _ _ E1). reflexivity.
  - intros t1 t2 c1 c2 E1 E2 R1 R2 N.
    unfold validate_crs_compatibility, try_except, bind, lift.
    rewrite E1, E2, R1, R2, (crs_ne_true _ _ N). reflexivity.
  - rewrite !validate_crs_compatibility_Return. split;
      intros (t1 & t2 & c1 & c2 & E1 & E2 & R1 & R2 & N);
      exists t2, t1, c2, c1; rewrite crs_ne_sym; repeat split; assumption.
Qed.


Lemma validate_crs_compatibility_outcome_witness :
  exists e,
    validate_crs_compatibility "a.shp" "b.shp" site_fs = (Raise e, site_fs)
    /\ cls e = ProjectionError.
Proof.
  eexists. split.
  - apply (proj1 (proj2 (proj2 (validate_crs_compatibility_outcome
                                  "a.shp" "b.shp" site_fs)))
             "vector"%string "vector"%string
             (Some "EPSG:4326"%string) (Some "EPSG:3857"%string));
      try reflexivity.
    discriminate.
  - reflexivity.
Defined.

(** * Further properties of the rule table *)

Import RasterPanel.

Lemma Qeq_bool_congr a b c :
  Qeq_bool a b = true -> Qeq_bool a c = Qeq_bool b c.
Proof.
  intro H. apply Qeq_bool_iff in H.
  destruct (Qeq_bool a c) eqn:E1, (Qeq_bool b c) eqn:E2; try reflexivity.
  - apply Qeq_bool_iff in E1. apply Qeq_bool_neq in E2.
    contradiction E2. rewrite <- H. exact E1.
  - apply Qeq_bool_iff in E2. apply Qeq_bool_neq in E1.
    contradiction E1. rewrite H. exact E2.
Qed.

Lemma key_eqb_congr k1 k2 k :
  key_eqb k1 k2 = true -> key_eqb k1 k = key_eqb k2 k.
Proof.
  unfold key_eqb. intro H. apply andb_true_iff in H as [H1 H2].
  now rewrite (Qeq_bool_congr _ _ _ H1), (Qeq_bool_congr _ _ _ H2).
Qed.

Lemma key_eqb_refl k : key_eqb k k = true.
Proof. unfold key_eqb. now rewrite !Qeq_bool_refl. Qed.

Lemma key_eqb_sym k1 k2 : key_eqb k1 k2 = key_eqb k2 k1.
Proof.
  destruct (key_eqb k1 k2) eqn:E.
  - rewrite <- (key_eqb_congr _ _ k1 E). symmetry. apply key_eqb_refl.
  - destruct (key_eqb k2 k1) eqn:E'; [| reflexivity].
    pose proof (key_eqb_congr _ _ k2 E') as X.
    rewrite key_eqb_refl, E in X. discriminate X.
Qed.

Lemma class_of_dict_set rules k v key :
  class_of (dict_set rules k v) key =
  if key_eqb k key then Some v else class_of rules key.
Proof.
  unfold class_of. induction rules as [| [k0 v0] rules IH]; cbn.
  - destruct (key_eqb k key); reflexivity.
  - destruct (key_eqb k0 k) eqn:E; cbn.
    + rewrite (key_eqb_congr _ _ _ E). destruct (key_eqb k key); reflexivity.
    + destruct (key_eqb k0 key) eqn:E0; [| exact IH].
      destruct (key_eqb k key) eqn:E1; [| reflexivity].
      rewrite (key_eqb_congr _ _ k E0), key_eqb_sym, E1 in E.
      discriminate E.
Qed.

Lemma Forall_dict_set k0 rules k v :
  key_eqb k0 k = false ->
  Forall (fun r => key_eqb k0 (fst r) = false) rules ->
  Forall (fun r => key_eqb k0 (fst r) = false) (dict_set rules k v).
Proof.
  intros N H. induction H as [| [k1 v1] rules H1 H IH]; cbn.
  - constructor; [exact N | constructor].
  - destruct (key_eqb k1 k); constructor; assumption.
Qed.

Lemma distinct_keys_dict_set rules k v :
  distinct_keys rules -> distinct_keys (dict_set rules k v).
Proof.
  unfold distinct_keys.
  induction 1 as [| [k0 v0] rules H0 H IH]; cbn.
  - constructor; constructor.
  - destruct (key_eqb k0 k) eqn:E.
    + constructor; assumption.
    + constructor; [| exact IH]. apply Forall_dict_set; assumption.
Qed.

Lemma keys_dict_set rules k v :
  map fst (dict_set rules k v) =
  match class_of rules k with
  | Some _ => map fst rules
  | None => map fst rules ++ [k]
  end.
Proof.
  unfold class_of. induction rules as [| [k0 v0] rules IH]; cbn.
  - reflexivity.
  - destruct (key_eqb k0 k); cbn; [reflexivity |].
    rewrite IH.
    destruct (find (fun r => key_eqb (fst r) k) rules); reflexivity.
Qed.

Lemma class_of_fold_add_row table rules key :
  class_of (fold_left add_row table rules) key =
  fold_left
    (fun found r =>
       match r with
       | (Some min_val, Some max_val, Some new_val) =>
           if key_eqb (min_val, max_val) key then Some new_val else found
       | _ => found
       end)
    table (class_of rules key).
Proof.
  revert rules. induction table as [| [[[a |] [b |]] [v |]] table IH];
    intro rules; cbn [fold_left add_row]; try apply IH; [reflexivity |].
  rewrite IH, class_of_dict_set. reflexivity.
Qed.

Lemma distinct_keys_fold_add_row table rules :
  distinct_keys rules -> distinct_keys (fold_left add_row table rules).
Proof.
  revert rules. induction table as [| [[[a |] [b |]] [v |]] table IH];
    intros rules H; cbn [fold_left add_row]; try (apply IH; exact H);
    [exact H |].
  apply IH, distinct_keys_dict_set, H.
Qed.

(** X26. The rules that get_reclass_rules reads from the table form a
    dictionary: no interval occurs twice, and the class under an interval
    is that of the last row that parses and holds it.  A row with a cell
    that is missing or does not parse leaves the rules as they are, and a
    row whose interval is there already changes the class under it and
    not its place, so that an interval entered again is still applied at
    the position of its first entry. *)
Theorem get_reclass_rules_is_a_dict table :
  distinct_keys (get_reclass_rules table)
  /\ (forall key,
        class_of (get_reclass_rules table) key = last_row_with table key)
  /\ (forall min_val max_val new_val,
        map fst (get_reclass_rules
                   (table ++ [(Some min_val, Some max_val, Some new_val)]))
        = match class_of (get_reclass_rules table) (min_val, max_val) with
          | Some _ => map fst (get_reclass_rules table)
          | None => map fst (get_reclass_rules table) ++ [(min_val, max_val)]
          end)
  /\ (forall min_val max_val new_val,
        min_val = None \/ max_val = None \/ new_val = None ->
        get_reclass_rules (table ++ [(min_val, max_val, new_val)])
        = get_reclass_rules table).
Proof.
  unfold get_reclass_rules, last_row_with. split; [| split; [| split]].
  - apply distinct_keys_fold_add_row. constructor.
  - intro key. apply class_of_fold_add_row.
  - intros a b v. rewrite fold_left_app. cbn [fold_left add_row].
    apply keys_dict_set.
  - intros a b v H. rewrite fold_left_app. cbn [fold_left add_row].
    destruct H as [-> | [-> | ->]]; [reflexivity | |].
    + destruct a; reflexivity.
    + destruct a, b; reflexivity.
Qed.

Lemma get_reclass_rules_is_a_dict_witness :
  map fst (get_reclass_rules edited_table) = [(0, 50); (40, 100)]%Q
  /\ class_of (get_reclass_rules edited_table) (0, 50)%Q = Some 3.
Proof.
  destruct (get_reclass_rules_is_a_dict (firstn 3 edited_table))
    as (_ & _ & K & _).
  destruct (get_reclass_rules_is_a_dict edited_table) as (_ & L & _).
  split.
  - exact (K 0%Q 50%Q 3).
  - exact (L (0, 50)%Q).
Defined.

(** * Further properties of the file descriptions *)

Import FileInfo.

Section InfoFacts.

Variable to_epsg : string -> option Z.
Variable geom_type : feature -> string.
Variable total_bounds : list feature -> Q * Q * Q * Q.
Variable isna : feature -> bool.

(** X27. The two descriptions of a file change no file and fail with
    DataFormatError only, under the prefixes "Cannot read raster info: "
    and "Cannot read vector info: ".  get_raster_info describes exactly
    the rasters with a band and get_vector_info exactly the files that
    read as a vector layer; a dataset without CRS is described with the
    CRS "Unknown".  A layer without rows is described, with the geometry
    type "Empty" and 0 features, although validate_vector_file refuses it
    with a DataFormatError and VectorDataset with a ValueError. *)
Theorem file_descriptions_outcome p fs :
  (forall r fs',
     get_raster_info p fs = (r, fs') ->
     fs' = fs
     /\ match r with
        | Return info =>
            exists src,
              fs p = Some (RasterFile src) /\ bands src <> []
              /\ ri_bands info = Datasets.count src
              /\ (crs src = None -> ri_crs info = "Unknown"%string)
        | Raise e =>
            cls e = DataFormatError
            /\ (exists m, msg e = "Cannot read raster info: " +++ m)
            /\ forall src, fs p = Some (RasterFile src) -> bands src = []
        end)
  /\ (forall g,
        fs p = Some (VectorFile g) ->
        exists info,
          get_vector_info geom_type total_bounds p fs = (Return info, fs)
          /\ vi_feature_count info = Z.of_nat (List.length (features g))
          /\ (gdf_crs g = None -> vi_crs info = "Unknown"%string)
          /\ (features g = [] ->
              vi_geometry_type info = "Empty"%string
              /\ (exists e,
                    Validators.validate_vector_file isna p fs = (Raise e, fs)
                    /\ cls e = DataFormatError)
              /\ (exists e,
                    VectorDataset_init to_epsg geom_type total_bounds p fs
                    = (Raise e, fs)
                    /\ cls e = ValueError)))
  /\ ((forall g, fs p <> Some (VectorFile g)) ->
      exists e,
        get_vector_info geom_type total_bounds p fs = (Raise e, fs)
        /\ cls e = DataFormatError
        /\ exists m, msg e = "Cannot read vector info: " +++ m).
Proof.
  split; [| split].
  - intros r fs'.
    unfold get_raster_info, try_except, bind, rasterio_open, get_fs, ret,
      raise, lift, first_dtype.
    cbn. destruct (fs p) as [[src | g |] |] eqn:Efs; cbn.
    + destruct (bands src) as [| b bs] eqn:Eb; cbn; intro H;
        injection H as <- <-; (split; [reflexivity |]).
      * repeat split; [eexists; reflexivity |].
        intros s E. injection E as <-. exact Eb.
      * exists src. unfold Datasets.count. rewrite Eb. cbn [ri_bands ri_crs].
        repeat split; [discriminate |]. intros ->. reflexivity.
    + intro H. injection H as <- <-. repeat split;
        try discriminate. eexists. reflexivity.
    + intro H. injection H as <- <-. repeat split;
        try discriminate. eexists. reflexivity.
    + intro H. injection H as <- <-. repeat split;
        try discriminate. eexists. reflexivity.
  - intros g Hg. unfold get_vector_info, try_except.
    rewrite (bind_run _ _ _ _ _ (read_file_run _ _ _ Hg)).
    eexists. split; [reflexivity |]. split; [reflexivity |].
    cbn [vi_crs vi_geometry_type]. split; [intros ->; reflexivity |].
    intro Ef. rewrite Ef. split; [reflexivity |]. split.
    + destruct (Validators.validate_vector_file isna p fs) as [r fs'] eqn:V.
      apply validate_vector_file_inv in V as [-> H].
      destruct r as [b | e].
      * destruct H as (_ & g0 & ft & E0 & Hin & _).
        rewrite Hg in E0. injection E0 as <-. rewrite Ef in Hin.
        contradiction Hin.
      * exists e. split; [reflexivity | apply H].
    + destruct (VectorDataset_init to_epsg geom_type total_bounds p fs)
        as [r fs'] eqn:V.
      apply VectorDataset_init_inv in V as [-> H].
      destruct r as [d | e].
      * destruct H as (g0 & E0 & Hne & _).
        rewrite Hg in E0. injection E0 as <-. contradiction (Hne Ef).
      * exists e. split; [reflexivity | apply H].
  - intro N. unfold get_vector_info, try_except, bind, read_file, get_fs,
      ret, raise.
    cbn. destruct (fs p) as [[src | g |] |] eqn:Efs; cbn.
    + eexists. repeat split. eexists. reflexivity.
    + contradiction (N g). reflexivity.
    + eexists. repeat split. eexists. reflexivity.
    + eexists. repeat split. eexists. reflexivity.
Qed.

End InfoFacts.

Lemma file_descriptions_outcome_witness :
  exists info,
    get_vector_info demo_geom_type demo_total_bounds "empty.shp" site_fs
    = (Return info, site_fs)
    /\ vi_feature_count info = 0
    /\ vi_geometry_type info = "Empty"%string.
Proof.
  destruct (proj1 (proj2 (file_descriptions_outcome demo_to_epsg
                            demo_geom_type demo_total_bounds demo_isna
                            "empty.shp" site_fs))
              empty_layer eq_refl)
    as (info & R & Hc & _ & He).
  exists info. split; [exact R |]. split; [exact Hc |].
  apply (He eq_refl).
Defined.

(** * Further properties of the map viewer *)

Import MapViewer.







